(** * LLM_news: a shallow embedding of the daily paper/news pipeline

    The development follows the layout of the Python sources:

    - [PyStr]        the [str] operations the pipeline relies on
    - [Re]           the fragment of the [re] module used by the filters and the summarizer
    - [Md5]          [hashlib.md5(...).hexdigest()]
    - [Datetime]     naive [datetime] values and their differences
    - [Models]       storage/models.py (PaperCreate, SeenPaper, SummaryResponse)
    - [Fetchers]     fetchers/base.py (PaperMetadata)
    - [Config]       config.py
    - [Normalize]    pipeline/normalize.py
    - [PyFloat]      the builtins [float], [min] and [max] on floats
    - [FilterRank]   pipeline/filter_rank.py
    - [Thai]         the Thai texts of the summarizer, as code points
    - [Summarize]    pipeline/summarize.py
    - [Storage]      storage/db.py (SeenPaperRepository)
    - [Delivery]     delivery/formatter.py and delivery/discord_post.py
    - [App]          app.py (LLMNewsBot.run_daily_pipeline)
    - [Samples]      the inputs of the examples

    Definitions come first; the lemmas and the theorems about them follow.

    Data model.  A Python [str] is a list of Unicode code points ([N]).
    Whitespace ([str.isspace], [str.split], [str.strip], the regex class
    [\s]) is tabulated for all of Unicode.  Case mapping ([str.lower],
    [str.isupper], regex IGNORECASE) and decimal digits (regex [\d]) are
    tabulated for Basic Latin, Latin-1 Supplement and the Thai block, the
    scripts of the texts and of the templates of this program; other code
    points are treated as caseless non-digits.  Python [float] is IEEE
    binary64, here [PrimFloat.float]. *)

From Stdlib Require Import ZArith NArith PeanoNat List Bool Lia String Ascii Floats.
From Stdlib Require Import Sorting.Sorted Sorting.Permutation.
Import ListNotations.

Set Implicit Arguments.
#[local] Set Warnings "-inexact-float".

(** [length] is the length of a list throughout. *)
Abbreviation length := Datatypes.length (only parsing).

(* ================================================================== *)
(** * Part I: definitions *)
(* ================================================================== *)

(** ** Exceptions and results *)

Inductive exn :=
| AttributeError (cls attr : string)
| ValueError (msg : string)
| TypeError (msg : string)
| UnicodeEncodeError
| IntegrityError
| OtherError (msg : string).

Inductive result (A : Type) :=
| Ok (a : A)
| Raise (e : exn).
Arguments Ok {A} a.
Arguments Raise {A} e.

Definition rbind {A B} (m : result A) (f : A -> result B) : result B :=
  match m with
  | Ok a => f a
  | Raise e => Raise e
  end.

(** ** Python [str] *)

Module PyStr.

Definition pychar := N.
Definition pystr := list pychar.

(** An ASCII literal of the source. *)
Definition lit (s : string) : pystr := map N_of_ascii (list_ascii_of_string s).

Definition between (lo hi c : N) : bool := (lo <=? c)%N && (c <=? hi)%N.

(** [str.isspace] of one character; also the separators of [str.split()]
    and [str.strip()] and the regex class [\s]. *)
Definition isspace (c : pychar) : bool :=
  between 9 13 c || between 28 32 c || (c =? 133)%N || (c =? 160)%N
  || (c =? 5760)%N || between 8192 8202 c || (c =? 8232)%N || (c =? 8233)%N
  || (c =? 8239)%N || (c =? 8287)%N || (c =? 12288)%N.

(** [c.isupper()] for one character. *)
Definition isupper (c : pychar) : bool :=
  between 65 90 c || between 192 214 c || between 216 222 c.

(** [c.lower()] for one character. *)
Definition lower_char (c : pychar) : pychar :=
  if isupper c then (c + 32)%N else c.

(** [s.lower()] *)
Definition lower (s : pystr) : pystr := map lower_char s.

(** The regex class [\d]. *)
Definition isdigit (c : pychar) : bool :=
  between 48 57 c || between 3664 3673 c.

Fixpoint eqb (s t : pystr) : bool :=
  match s, t with
  | [], [] => true
  | a :: s', b :: t' => (a =? b)%N && eqb s' t'
  | _, _ => false
  end.

(** [s.startswith(p)] *)
Fixpoint startswith (s p : pystr) {struct p} : bool :=
  match p, s with
  | [], _ => true
  | a :: p', b :: s' => (a =? b)%N && startswith s' p'
  | _ :: _, [] => false
  end.

(** [s.endswith(p)] *)
Definition endswith (s p : pystr) : bool := startswith (rev s) (rev p).

(** [p in s] *)
Fixpoint contains (s p : pystr) : bool :=
  startswith s p ||
  match s with
  | [] => false
  | _ :: s' => contains s' p
  end.

(** no character of [s] is whitespace *)
Definition nows (s : pystr) : bool := forallb (fun c => negb (isspace c)) s.

(** [s.lstrip()], [s.rstrip()], [s.strip()] *)
Fixpoint lstrip (s : pystr) : pystr :=
  match s with
  | [] => []
  | c :: s' => if isspace c then lstrip s' else s
  end.

Definition rstrip (s : pystr) : pystr := rev (lstrip (rev s)).

Definition strip (s : pystr) : pystr := rstrip (lstrip s).

(** [s.split()]: the maximal runs of non-whitespace characters. *)
Fixpoint split (s : pystr) : list pystr :=
  match s with
  | [] => []
  | c :: s' =>
      if isspace c then split s'
      else match s' with
           | [] => [[c]]
           | d :: _ =>
               if isspace d then [c] :: split s'
               else match split s' with
                    | w :: ws => (c :: w) :: ws
                    | [] => [[c]]
                    end
           end
  end.

(** [s.split(sep)] for a one-character separator. *)
Fixpoint split_on (sep : pychar) (s : pystr) : list pystr :=
  match s with
  | [] => [[]]
  | c :: s' =>
      if (c =? sep)%N then [] :: split_on sep s'
      else match split_on sep s' with
           | w :: ws => (c :: w) :: ws
           | [] => [[c]]
           end
  end.

(** [sep.join(l)] *)
Fixpoint join (sep : pystr) (l : list pystr) : pystr :=
  match l with
  | [] => []
  | w :: ws =>
      match ws with
      | [] => w
      | _ :: _ => w ++ sep ++ join sep ws
      end
  end.

(** [" ".join(s.strip().split())] *)
Definition collapse (s : pystr) : pystr := join [32%N] (split (strip s)).

(** [s.count(sub)]: occurrences found left to right without overlap. *)
Fixpoint count_from (sub : pystr) (skip : nat) (s : pystr) : nat :=
  match s with
  | [] => 0
  | _ :: s' =>
      match skip with
      | S k => count_from sub k s'
      | O => if startswith s sub
             then S (count_from sub (length sub - 1) s')
             else count_from sub 0 s'
      end
  end.

Definition count (s sub : pystr) : nat :=
  match sub with
  | [] => S (length s)
  | _ :: _ => count_from sub 0 s
  end.

(** [s.replace(old, new)] for a non-empty [old]. *)
Fixpoint replace_from (old new : pystr) (skip : nat) (s : pystr) : pystr :=
  match s with
  | [] => []
  | c :: s' =>
      match skip with
      | S k => replace_from old new k s'
      | O => if startswith s old
             then new ++ replace_from old new (length old - 1) s'
             else c :: replace_from old new 0 s'
      end
  end.

Definition replace (s old new : pystr) : pystr :=
  match old with
  | [] => s
  | _ :: _ => replace_from old new 0 s
  end.

(** [l[:n]] for an [int] that may be negative. *)
Definition slice_to {A} (l : list A) (n : Z) : list A :=
  if (n <? 0)%Z then firstn (length l - Z.to_nat (- n)) l
  else firstn (Z.to_nat n) l.

(** [str(n)] for a non-negative [int]. *)
Fixpoint digits_fuel (fuel : nat) (n : N) (acc : pystr) : pystr :=
  match fuel with
  | O => acc
  | S f =>
      let acc' := (48 + n mod 10)%N :: acc in
      if (n <? 10)%N then acc' else digits_fuel f (n / 10)%N acc'
  end.

Definition str_of_N (n : N) : pystr := digits_fuel (S (N.to_nat (N.log2 n))) n [].

Definition list_eqb (l m : list pystr) : bool :=
  (length l =? length m)%nat && forallb (fun p => eqb (fst p) (snd p)) (combine l m).

(** [x in l] for a list of strings *)
Definition mem (x : pystr) (l : list pystr) : bool := existsb (eqb x) l.

(** [s] begins with the character [c] *)
Definition starts_with_char (c : pychar) (s : pystr) : Prop := exists rest, s = c :: rest.

(** a word as [split] returns it: non-empty and free of whitespace *)
Definition word (w : pystr) : Prop := w <> [] /\ nows w = true.

(** a string that neither starts nor ends with whitespace *)
Definition head_ok (s : pystr) : Prop :=
  match s with
  | [] => True
  | c :: _ => isspace c = false
  end.

Definition trimmed (s : pystr) : Prop := head_ok s /\ head_ok (rev s).

End PyStr.
Import PyStr.

(** ** The [re] fragment

    Python's backtracking matcher for the constructs that occur in the
    patterns of this program: literals, character classes, [.],
    concatenation, alternation, [r?], greedy [c*] and [c+] and lazy [c*?]
    over a one-character class, and capturing groups.  The matcher is
    written in continuation-passing style; the first success in Python's
    priority order is returned.  Captures are recorded in the order in which
    the groups close, which is their number for the patterns used here (no
    group is nested in another). *)

Module Re.

Inductive re :=
| Eps
| Chr (c : pychar)
| Cls (p : pychar -> bool)
| Cat (r1 r2 : re)
| Alt (r1 r2 : re)
| Opt (r : re)
| Star (p : pychar -> bool)
| Plus (p : pychar -> bool)
| LazyStar (p : pychar -> bool)
| Grp (r : re).

(** [.] matches anything but a newline. *)
Definition dot (c : pychar) : bool := negb (c =? 10)%N.

(** A literal string as a pattern. *)
Fixpoint Str (s : pystr) : re :=
  match s with
  | [] => Eps
  | c :: s' =>
      match s' with
      | [] => Chr c
      | _ :: _ => Cat (Chr c) (Str s')
      end
  end.

Definition orElse {R} (a b : option R) : option R :=
  match a with
  | Some x => Some x
  | None => b
  end.

Section Match.
Variable ic : bool.   (* re.IGNORECASE *)
Variable R : Type.

Definition chr_matches (c d : pychar) : bool :=
  if ic then (lower_char d =? lower_char c)%N else (d =? c)%N.

Fixpoint greedy (p : pychar -> bool) (s : pystr) (k : pystr -> option R) : option R :=
  match s with
  | c :: s' => if p c then orElse (greedy p s' k) (k s) else k s
  | [] => k s
  end.

Fixpoint lazy_ (p : pychar -> bool) (s : pystr) (k : pystr -> option R) : option R :=
  orElse (k s)
    match s with
    | c :: s' => if p c then lazy_ p s' k else None
    | [] => None
    end.

Fixpoint mt (r : re) (s : pystr) (caps : list pystr)
    (k : pystr -> list pystr -> option R) : option R :=
  match r with
  | Eps => k s caps
  | Chr c =>
      match s with
      | d :: s' => if chr_matches c d then k s' caps else None
      | [] => None
      end
  | Cls p =>
      match s with
      | d :: s' => if p d then k s' caps else None
      | [] => None
      end
  | Cat r1 r2 => mt r1 s caps (fun s' caps' => mt r2 s' caps' k)
  | Alt r1 r2 => orElse (mt r1 s caps k) (mt r2 s caps k)
  | Opt r1 => orElse (mt r1 s caps k) (k s caps)
  | Star p => greedy p s (fun s' => k s' caps)
  | Plus p =>
      match s with
      | d :: s' => if p d then greedy p s' (fun s'' => k s'' caps) else None
      | [] => None
      end
  | LazyStar p => lazy_ p s (fun s' => k s' caps)
  | Grp r1 =>
      mt r1 s caps
         (fun s' caps' => k s' (caps' ++ [firstn (length s - length s') s]))
  end.

End Match.

(** A match anchored at the start of [s]: the rest of the text and the groups. *)
Definition match_here (ic : bool) (r : re) (s : pystr) : option (pystr * list pystr) :=
  mt ic r s [] (fun rest caps => Some (rest, caps)).

(** [re.search(r, s)]: the groups of the leftmost match, if any. *)
Fixpoint search (ic : bool) (r : re) (s : pystr) : option (list pystr) :=
  match match_here ic r s with
  | Some (_, caps) => Some caps
  | None =>
      match s with
      | [] => None
      | _ :: s' => search ic r s'
      end
  end.

(** [m.group(n)] for [n >= 1] *)
Definition group (caps : list pystr) (n : nat) : pystr := nth (n - 1) caps [].

(** [re.sub(r, r'\1', s)]: every match, left to right and without
    overlap, is replaced by its first group. *)
Fixpoint sub1_from (r : re) (skip : nat) (s : pystr) : pystr :=
  match s with
  | [] =>
      match match_here false r [] with
      | Some (_, caps) => group caps 1
      | None => []
      end
  | c :: s' =>
      match skip with
      | S k => sub1_from r k s'
      | O =>
          match match_here false r s with
          | Some (rest, caps) =>
              if (length rest =? length s)%nat
              then group caps 1 ++ c :: sub1_from r 0 s'
              else group caps 1 ++ sub1_from r (length s - length rest - 1) s'
          | None => c :: sub1_from r 0 s'
          end
      end
  end.

Definition sub1 (r : re) (s : pystr) : pystr := sub1_from r 0 s.

End Re.

(** ** [hashlib.md5]

    MD5 as in RFC 1321, over bytes held as [N] below 256 and 32-bit words
    held as [N] with the wrap-around written out. *)

Module Md5.

Definition w32 (x : N) : N := (x mod 4294967296)%N.

Definition add32 (x y : N) : N := w32 (x + y).

Definition not32 (x : N) : N := N.lxor x 4294967295.

Definition rotl32 (x : N) (n : N) : N :=
  w32 (N.lor (N.shiftl x n) (N.shiftr x (32 - n))).

(** floor(2^32 * abs(sin(i + 1))) for i = 0 .. 63 *)
Definition K : list N :=
  [
   3614090360; 3905402710; 606105819; 3250441966;
   4118548399; 1200080426; 2821735955; 4249261313;
   1770035416; 2336552879; 4294925233; 2304563134;
   1804603682; 4254626195; 2792965006; 1236535329;
   4129170786; 3225465664; 643717713; 3921069994;
   3593408605; 38016083; 3634488961; 3889429448;
   568446438; 3275163606; 4107603335; 1163531501;
   2850285829; 4243563512; 1735328473; 2368359562;
   4294588738; 2272392833; 1839030562; 4259657740;
   2763975236; 1272893353; 4139469664; 3200236656;
   681279174; 3936430074; 3572445317; 76029189;
   3654602809; 3873151461; 530742520; 3299628645;
   4096336452; 1126891415; 2878612391; 4237533241;
   1700485571; 2399980690; 4293915773; 2240044497;
   1873313359; 4264355552; 2734768916; 1309151649;
   4149444226; 3174756917; 718787259; 3951481745
  ]%N.

(** the per-round shift amounts *)
Definition shifts : list N :=
  [
   7; 12; 17; 22; 7; 12; 17; 22; 7; 12; 17; 22; 7; 12; 17; 22;
   5; 9; 14; 20; 5; 9; 14; 20; 5; 9; 14; 20; 5; 9; 14; 20;
   4; 11; 16; 23; 4; 11; 16; 23; 4; 11; 16; 23; 4; 11; 16; 23;
   6; 10; 15; 21; 6; 10; 15; 21; 6; 10; 15; 21; 6; 10; 15; 21
  ]%N.

(** [str.encode()]: UTF-8; a surrogate code point cannot be encoded. *)
Definition encode_char (c : pychar) : option (list N) :=
  if (c <? 128)%N then Some [c]
  else if (c <? 2048)%N then
    Some [N.lor 192 (N.shiftr c 6); N.lor 128 (N.land c 63)]
  else if (c <? 65536)%N then
    if between 55296 57343 c then None
    else Some [N.lor 224 (N.shiftr c 12);
               N.lor 128 (N.land (N.shiftr c 6) 63);
               N.lor 128 (N.land c 63)]
  else if (c <? 1114112)%N then
    Some [N.lor 240 (N.shiftr c 18);
          N.lor 128 (N.land (N.shiftr c 12) 63);
          N.lor 128 (N.land (N.shiftr c 6) 63);
          N.lor 128 (N.land c 63)]
  else None.

Fixpoint encode (s : pystr) : result (list N) :=
  match s with
  | [] => Ok []
  | c :: s' =>
      match encode_char c with
      | None => Raise UnicodeEncodeError
      | Some bs => rbind (encode s') (fun rest => Ok (bs ++ rest))
      end
  end.

(** little-endian bytes of a 32-bit and of a 64-bit quantity *)
Definition le_bytes32 (w : N) : list N :=
  [ (w mod 256); (w / 256 mod 256); (w / 65536 mod 256); (w / 16777216 mod 256) ]%N.

Definition le_bytes64 (w : N) : list N :=
  le_bytes32 (w mod 4294967296)%N ++ le_bytes32 (w / 4294967296 mod 4294967296)%N.

Definition word_of_bytes (bs : list N) : N :=
  (nth 0 bs 0 + 256 * nth 1 bs 0 + 65536 * nth 2 bs 0 + 16777216 * nth 3 bs 0)%N.

(** the message followed by 0x80, zeros up to 56 mod 64, and its bit length *)
Definition pad (msg : list N) : list N :=
  let n := length msg in
  let zeros := (55 + 64 - n mod 64) mod 64 in
  msg ++ [128%N] ++ repeat 0%N zeros ++ le_bytes64 (8 * N.of_nat n)%N.

Fixpoint chunks (fuel : nat) (size : nat) (l : list N) : list (list N) :=
  match fuel with
  | O => []
  | S f =>
      match l with
      | [] => []
      | _ :: _ => firstn size l :: chunks f size (skipn size l)
      end
  end.

Definition words_of_block (block : list N) : list N :=
  map word_of_bytes (chunks 16 4 block).

Definition state := (N * N * N * N)%type.

Definition init : state :=
  (1732584193, 4023233417, 2562383102, 271733878)%N.

Definition step (M : list N) (st : state) (i : nat) : state :=
  let '(A, B, C, D) := st in
  let '(F, g) :=
    if (i <? 16)%nat then (N.lor (N.land B C) (N.land (not32 B) D), i)
    else if (i <? 32)%nat then
      (N.lor (N.land D B) (N.land (not32 D) C), (5 * i + 1) mod 16)
    else if (i <? 48)%nat then (N.lxor B (N.lxor C D), (3 * i + 5) mod 16)
    else (N.lxor C (N.lor B (not32 D)), (7 * i) mod 16) in
  let F' := add32 (add32 (add32 F A) (nth i K 0%N)) (nth g M 0%N) in
  (D, add32 B (rotl32 F' (nth i shifts 0%N)), B, C).

Definition process_block (st : state) (block : list N) : state :=
  let M := words_of_block block in
  let '(a0, b0, c0, d0) := st in
  let '(A, B, C, D) := fold_left (step M) (seq 0 64) st in
  (add32 a0 A, add32 b0 B, add32 c0 C, add32 d0 D).

Definition digest_state (msg : list N) : state :=
  let p := pad msg in
  fold_left process_block (chunks (length p) 64 p) init.

(** [.digest()]: the sixteen bytes of the state *)
Definition digest (msg : list N) : list N :=
  let '(a, b, c, d) := digest_state msg in
  le_bytes32 a ++ le_bytes32 b ++ le_bytes32 c ++ le_bytes32 d.

Definition hexchar (n : N) : pychar :=
  if (n <? 10)%N then (48 + n)%N else (87 + n)%N.

Definition hex_of_byte (b : N) : pystr :=
  [hexchar (b / 16 mod 16); hexchar (b mod 16)]%N.

(** [.hexdigest()] *)
Definition hexdigest (msg : list N) : pystr := flat_map hex_of_byte (digest msg).

Definition is_hexchar (c : pychar) : bool := between 48 57 c || between 97 102 c.

(** the code points UTF-8 can encode: scalar values, no surrogates *)
Definition encodable (s : pystr) : bool :=
  forallb (fun c => (c <? 1114112)%N && negb (between 55296 57343 c)) s.

End Md5.

(** ** Naive [datetime] values

    A datetime is kept as its fields, as Python keeps it.  Differences and
    comparisons go through the proleptic ordinal of the date, as
    [datetime.__sub__] does. *)

Module Datetime.

Record datetime := mk {
  year : Z; month : Z; day : Z;
  hour : Z; minute : Z; second : Z; microsecond : Z
}.

Local Open Scope Z_scope.

Definition is_leap (y : Z) : bool :=
  (y mod 4 =? 0) && (negb (y mod 100 =? 0) || (y mod 400 =? 0)).

Definition days_before_year (y : Z) : Z :=
  let p := y - 1 in p * 365 + p / 4 - p / 100 + p / 400.

Definition DAYS_BEFORE_MONTH : list Z :=
  [0; 31; 59; 90; 120; 151; 181; 212; 243; 273; 304; 334].

Definition days_before_month (y m : Z) : Z :=
  nth (Z.to_nat (m - 1)) DAYS_BEFORE_MONTH 0
  + (if (2 <? m) && is_leap y then 1 else 0).

Definition days_in_month (y m : Z) : Z :=
  if m =? 2 then (if is_leap y then 29 else 28)
  else if (m =? 4) || (m =? 6) || (m =? 9) || (m =? 11) then 30 else 31.

(** [d.toordinal()] *)
Definition toordinal (d : datetime) : Z :=
  days_before_year (year d) + days_before_month (year d) (month d) + day d.

(** the fields a [datetime] constructor accepts *)
Definition valid (d : datetime) : Prop :=
  1 <= year d <= 9999 /\ 1 <= month d <= 12 /\
  1 <= day d <= days_in_month (year d) (month d) /\
  0 <= hour d < 24 /\ 0 <= minute d < 60 /\ 0 <= second d < 60 /\
  0 <= microsecond d < 1000000.

(** microseconds since the start of ordinal day 0 *)
Definition total_us (d : datetime) : Z :=
  ((toordinal d * 86400 + hour d * 3600 + minute d * 60 + second d) * 1000000)
  + microsecond d.

Definition US_PER_DAY : Z := 86400000000.

(** [(a - b).days]: the day count of the normalized timedelta (floored). *)
Definition days_between (a b : datetime) : Z :=
  (total_us a - total_us b) / US_PER_DAY.

(** [a < b - timedelta(days=n)] *)
Definition before_days_ago (a b : datetime) (n : Z) : bool :=
  total_us a <? total_us b - n * US_PER_DAY.

Definition eqb (a b : datetime) : bool :=
  (year a =? year b) && (month a =? month b) && (day a =? day b) &&
  (hour a =? hour b) && (minute a =? minute b) && (second a =? second b) &&
  (microsecond a =? microsecond b).

(** [d] lies at most one day before [now] *)
Definition within_last_day (now d : datetime) : Prop :=
  0 <= total_us now - total_us d <= US_PER_DAY.

Definition new_year_2021 : datetime := mk 2021 1 1 0 0 0 0.
Definition jan3_2021 : datetime := mk 2021 1 3 0 0 0 0.

End Datetime.

(** ** storage/models.py *)

Definition option_eqb {A} (f : A -> A -> bool) (x y : option A) : bool :=
  match x, y with
  | Some a, Some b => f a b
  | None, None => true
  | _, _ => false
  end.

(** truth value of an optional string: neither [None] nor empty *)
Definition truthy (o : option pystr) : bool :=
  match o with
  | Some (_ :: _) => true
  | _ => false
  end.

Definition nonempty {A} (l : list A) : bool :=
  match l with
  | [] => false
  | _ :: _ => true
  end.

Module PaperCreate.

Record t := mk {
  source : pystr;
  doi : option pystr;
  arxiv_id : option pystr;
  title : pystr;
  authors : list pystr;
  abstract : option pystr;
  url : pystr;
  published_at : option Datetime.datetime;
  tags : option (list pystr);
  categories : option (list pystr)
}.

(** [==] on two records: field by field *)
Definition eqb (a b : t) : bool :=
  PyStr.eqb (source a) (source b) &&
  option_eqb PyStr.eqb (doi a) (doi b) &&
  option_eqb PyStr.eqb (arxiv_id a) (arxiv_id b) &&
  PyStr.eqb (title a) (title b) &&
  list_eqb (authors a) (authors b) &&
  option_eqb PyStr.eqb (abstract a) (abstract b) &&
  PyStr.eqb (url a) (url b) &&
  option_eqb Datetime.eqb (published_at a) (published_at b) &&
  option_eqb list_eqb (tags a) (tags b) &&
  option_eqb list_eqb (categories a) (categories b).

End PaperCreate.

Module SummaryResponse.

Record t := mk {
  summary_thai : pystr;
  tldr_thai : pystr;
  word_count : nat
}.

End SummaryResponse.

Module SeenPaperCreate.

Record t := mk {
  identifier : pystr;
  identifier_type : pystr;
  source : pystr;
  paper_id : option Z
}.

End SeenPaperCreate.

(** A row of the table [seen_papers]. *)
Module SeenPaper.

Record t := mk {
  id : Z;
  identifier : pystr;
  identifier_type : pystr;
  source : pystr;
  paper_id : option Z;
  seen_at : Datetime.datetime
}.

End SeenPaper.

(** ** fetchers/base.py *)

Module PaperMetadata.

Record t := mk {
  title : pystr;
  authors : list pystr;
  abstract : pystr;
  url : pystr;
  source : pystr;
  doi : option pystr;
  arxiv_id : option pystr;
  published_at : option Datetime.datetime;
  categories : option (list pystr);
  tags : option (list pystr)
}.

(** the text that is hashed: title, first author, publication year *)
Definition hash_content (self : t) : pystr :=
  let content :=
    title self ++ match authors self with
                  | a :: _ => a
                  | [] => []
                  end in
  match published_at self with
  | Some d => content ++ str_of_N (Z.to_N (Datetime.year d))
  | None => content
  end.

Definition get_identifier (self : t) : result pystr :=
  if truthy (doi self) then
    Ok (match doi self with Some d => d | None => [] end)
  else if truthy (arxiv_id self) then
    Ok (match arxiv_id self with Some a => a | None => [] end)
  else
    rbind (Md5.encode (hash_content self)) (fun b => Ok (Md5.hexdigest b)).

Definition get_identifier_type (self : t) : pystr :=
  if truthy (doi self) then lit "doi"
  else if truthy (arxiv_id self) then lit "arxiv_id"
  else lit "hash".

End PaperMetadata.

(** ** config.py *)

Module Config.

(** the process environment read by [os.getenv] *)
Definition environ := string -> option pystr.

Definition getenv (env : environ) (key : string) (default : pystr) : pystr :=
  match env key with
  | Some v => v
  | None => default
  end.

Definition _get_list (env : environ) (key : string) (default : list pystr) : list pystr :=
  let value := getenv env key (join (lit ",") default) in
  if nonempty value
  then filter nonempty (map strip (split_on 44%N value))
  else default.

Definition get_keywords_include (env : environ) : list pystr :=
  _get_list env "KEYWORDS_INCLUDE" [].

Definition get_keywords_exclude (env : environ) : list pystr :=
  _get_list env "KEYWORDS_EXCLUDE" [].

Definition get_arxiv_categories (env : environ) : list pystr :=
  _get_list env "ARXIV_CATEGORIES" [].

(** The dictionary handed to the pipeline components ([Config.get_all()] or
    a test's literal), with the value types [_load_config] gives: [None]
    stands for a key that is absent or unset. *)
Record dict := mk {
  KEYWORDS_INCLUDE : option pystr;
  KEYWORDS_EXCLUDE : option pystr;
  ARXIV_CATEGORIES : option pystr;
  SUMMARY_MIN_LENGTH : option Z;
  SUMMARY_MAX_LENGTH : option Z;
  TLDR_MAX_LENGTH : option Z;
  MAX_PAPERS_PER_DAY : option Z;
  MIN_NEWS_QUOTA : option Z;
  SUMMARIZER_MODE : option pystr;
  OPENAI_API_KEY : option pystr;
  OPENAI_MODEL : option pystr;
  ANTHROPIC_API_KEY : option pystr;
  ANTHROPIC_MODEL : option pystr;
  DISCORD_WEBHOOK_URL : option pystr;
  DISCORD_BOT_TOKEN : option pystr;
  DRY_RUN : option bool
}.

(** [config.get(key, default)] *)
Definition get {A} (v : option A) (default : A) : A :=
  match v with
  | Some x => x
  | None => default
  end.

End Config.

(** ** pipeline/normalize.py *)

Module Normalize.

(** the loop [for prefix in prefixes: if s.startswith(prefix): s = s[len(prefix):].strip()] *)
Definition strip_prefixes (prefixes : list pystr) (s : pystr) : pystr :=
  fold_left
    (fun acc prefix =>
       if startswith acc prefix then strip (skipn (length prefix) acc) else acc)
    prefixes s.

(** [s[:n - 3] + "..."] when [len(s) > n] *)
Definition truncate (n : nat) (s : pystr) : pystr :=
  if (n <? length s)%nat then firstn (n - 3) s ++ lit "..." else s.

Definition title_prefixes : list pystr := [lit "Title:"; lit "TITLE:"; lit "Paper:"].

Definition abstract_prefixes : list pystr :=
  [lit "Abstract:"; lit "ABSTRACT:"; lit "Summary:"].

Definition _clean_title (title : pystr) : pystr :=
  if nonempty title then
    truncate 300 (strip_prefixes title_prefixes (collapse title))
  else [].

Definition _clean_abstract (abstract : pystr) : pystr :=
  if nonempty abstract then
    truncate 2000 (strip_prefixes abstract_prefixes (collapse abstract))
  else [].

Definition author_prefixes : list pystr :=
  [lit "Dr."; lit "Prof."; lit "Professor"; lit "PhD"; lit "Ph.D."].

Definition _normalize_authors (authors : list pystr) : list pystr :=
  firstn 20
    (flat_map
       (fun author =>
          if nonempty author then
            let author := strip author in
            if nonempty author then
              [truncate 100 (strip_prefixes author_prefixes author)]
            else []
          else [])
       authors).

Definition _normalize_date (date : option Datetime.datetime) : option Datetime.datetime :=
  date.

Definition subject_mapping : list (pystr * pystr) :=
  [ (lit "Computer Science", lit "cs");
    (lit "Mathematics", lit "math");
    (lit "Physics", lit "physics");
    (lit "Biology", lit "bio");
    (lit "Medicine", lit "med");
    (lit "Engineering", lit "eng");
    (lit "Statistics", lit "stat") ].

Definition _normalize_crossref_subject (subject : pystr) : pystr :=
  let subject_lower := lower subject in
  match find (fun kv => contains subject_lower (lower (fst kv))) subject_mapping with
  | Some kv => snd kv
  | None => firstn 50 subject
  end.

Definition _normalize_categories (categories : option (list pystr)) (source : pystr)
  : list pystr :=
  match categories with
  | None => []
  | Some cats =>
      firstn 10
        (flat_map
           (fun cat =>
              if nonempty cat then
                let cat := strip cat in
                if nonempty cat then
                  if PyStr.eqb source (lit "arxiv") then [cat]
                  else if PyStr.eqb source (lit "crossref") then
                    let cat := _normalize_crossref_subject cat in
                    if nonempty cat then [cat] else []
                  else [firstn 50 cat]
                else []
              else [])
           cats)
  end.

Definition tag_keywords : list pystr :=
  map lit
    [ "machine learning"; "deep learning"; "neural network"; "artificial intelligence";
      "computer vision"; "natural language processing"; "nlp"; "transformers";
      "diffusion"; "gan"; "generative"; "classification"; "regression";
      "reinforcement learning"; "supervised"; "unsupervised"; "pytorch"; "tensorflow" ]%string.

Definition category_map : list (pystr * pystr) :=
  [ (lit "cs.AI", lit "artificial intelligence");
    (lit "cs.LG", lit "machine learning");
    (lit "cs.CV", lit "computer vision");
    (lit "cs.CL", lit "computational linguistics");
    (lit "cs.NE", lit "neural networks") ].

Definition _normalize_url (url : pystr) (doi arxiv_id : option pystr) : pystr :=
  if truthy doi then lit "https://doi.org/" ++ Config.get doi []
  else if truthy arxiv_id then lit "https://arxiv.org/abs/" ++ Config.get arxiv_id []
  else if nonempty url then url
  else lit "https://example.com/paper-not-found".

Definition is_news_source (source : pystr) : bool :=
  PyStr.eqb source (lit "tech_news") || PyStr.eqb source (lit "nasa").

Definition min_len_standard : nat := 50.
Definition min_len_news : nat := 20.

(** the abstract kept for a news item whose own abstract is too short *)
Definition synthesized_abstract (title : pystr) (min_required : nat) : pystr :=
  let synthesized :=
    if nonempty title then lit "News: " ++ title
    else lit "Technology/space news item" in
  if (min_required <=? length synthesized)%nat then synthesized
  else if nonempty title
       then firstn (min_len_news + 5) (title ++ lit " - " ++ title)
       else synthesized.

Section WithSetOrder.

(** [list(set(l))]: the distinct elements of [l] in the order in which the
    running interpreter iterates the set (it depends on the hash seed). *)
Variable set_iter : list pystr -> list pystr.

Definition _extract_tags (paper : PaperMetadata.t) : list pystr :=
  let tags := Config.get (PaperMetadata.tags paper) [] in
  let text :=
    lower (PaperMetadata.title paper ++ lit " " ++ PaperMetadata.abstract paper) in
  let tags := tags ++ filter (fun keyword => contains text keyword) tag_keywords in
  let tags :=
    tags ++
    flat_map
      (fun cat =>
         if startswith cat (lit "cs.") then
           match find (fun kv => PyStr.eqb (fst kv) cat) category_map with
           | Some kv => [snd kv]
           | None => []
           end
         else [])
      (Config.get (PaperMetadata.categories paper) []) in
  firstn 15 (set_iter tags).

Definition _normalize_single_paper (paper : PaperMetadata.t) : option PaperCreate.t :=
  let title := _clean_title (PaperMetadata.title paper) in
  if negb (nonempty title) || (length title <? 10)%nat then None
  else
    let abstract := _clean_abstract (PaperMetadata.abstract paper) in
    let is_news := is_news_source (PaperMetadata.source paper) in
    let min_required := if is_news then min_len_news else min_len_standard in
    let abstract' :=
      if negb (nonempty abstract) || (length abstract <? min_required)%nat then
        if is_news then Some (synthesized_abstract title min_required)
        else None
      else Some abstract in
    match abstract' with
    | None => None
    | Some abstract =>
        let authors := _normalize_authors (PaperMetadata.authors paper) in
        if negb (nonempty authors) then None
        else
          let published_at := _normalize_date (PaperMetadata.published_at paper) in
          let categories :=
            _normalize_categories (PaperMetadata.categories paper)
                                  (PaperMetadata.source paper) in
          let tags := _extract_tags paper in
          let url :=
            _normalize_url (PaperMetadata.url paper) (PaperMetadata.doi paper)
                           (PaperMetadata.arxiv_id paper) in
          Some (PaperCreate.mk (PaperMetadata.source paper) (PaperMetadata.doi paper)
                  (PaperMetadata.arxiv_id paper) title authors (Some abstract) url
                  published_at (Some tags) (Some categories))
    end.

Definition normalize_papers (papers : list PaperMetadata.t) : list PaperCreate.t :=
  flat_map
    (fun paper =>
       match _normalize_single_paper paper with
       | Some normalized_paper => [normalized_paper]
       | None => []
       end)
    papers.

End WithSetOrder.

(** some author survives [_normalize_authors]: it is not blank *)
Definition has_usable_author (authors : list pystr) : Prop :=
  exists a, In a authors /\ strip a <> [].

(** one iteration order of a set: first occurrences, in order *)
Fixpoint first_seen (l : list pystr) : list pystr :=
  match l with
  | [] => []
  | x :: l' => x :: filter (fun y => negb (PyStr.eqb x y)) (first_seen l')
  end.

End Normalize.

(** ** Python [float] *)

Module PyFloat.

Local Open Scope float_scope.

(** [float(n)] for a length or a count *)
Definition of_nat (n : nat) : float := PrimFloat.of_uint63 (Uint63.of_Z (Z.of_nat n)).

(** the builtin [min(a, b)] and [max(a, b)]: the first argument wins a tie *)
Definition min (a b : float) : float := if b <? a then b else a.
Definition max (a b : float) : float := if a <? b then b else a.

(** an ordinary number: not NaN *)
Definition ordinary (x : float) : Prop := (x <=? x) = true.

End PyFloat.

(** ** pipeline/filter_rank.py *)

Module FilterRank.

Import Re.

Definition _parse_keywords (keywords_str : pystr) : list pystr :=
  if nonempty keywords_str
  then map (fun kw => lower (strip kw))
           (filter (fun kw => nonempty (strip kw)) (split_on 44%N keywords_str))
  else [].

(** [str(x)] inside an f-string, for an optional string *)
Definition fmt_opt (o : option pystr) : pystr :=
  match o with
  | Some s => s
  | None => lit "None"
  end.

(** [f"{paper.title} {paper.abstract}".lower()] *)
Definition paper_text (paper : PaperCreate.t) : pystr :=
  lower (PaperCreate.title paper ++ lit " " ++ fmt_opt (PaperCreate.abstract paper)).

Definition spam_patterns : list re :=
  [ Str (lit "buy now"); Str (lit "click here"); Str (lit "visit our website");
    Str (lit "special offer"); Str (lit "limited time"); Str (lit "act now");
    Str (lit "www.");
    Cat (Str (lit "http")) (Cat (Opt (Chr 115%N)) (Str (lit "://")));
    Str (lit "contact us"); Str (lit "advertisement"); Str (lit "promotional") ].

Definition found (r : re) (text : pystr) : bool :=
  match search false r text with
  | Some _ => true
  | None => false
  end.

(** ContentFilter *)
Module ContentFilter.

Record t := mk {
  config : Config.dict;
  include_keywords : list pystr;
  exclude_keywords : list pystr;
  min_abstract_length : Z
}.

Definition __init__ (config : Config.dict) : t :=
  mk config
     (_parse_keywords (Config.get (Config.KEYWORDS_INCLUDE config) []))
     (_parse_keywords (Config.get (Config.KEYWORDS_EXCLUDE config) []))
     (Config.get (Config.SUMMARY_MIN_LENGTH config) 50%Z).

Definition _is_spam (paper : PaperCreate.t) : bool :=
  let text := paper_text paper in
  if existsb (fun pattern => found pattern text) spam_patterns then true
  else
    let title := PaperCreate.title paper in
    if (10 <? length title)%nat &&
       (0.5 <? PyFloat.of_nat (length (filter isupper title))
               / PyFloat.of_nat (length title))%float
    then true
    else false.

Definition _passes_quality_check (self : t) (paper : PaperCreate.t) : bool :=
  let title := PaperCreate.title paper in
  if negb (nonempty title) || (length title <? 10)%nat then false
  else if negb (truthy (PaperCreate.abstract paper))
          || (Z.of_nat (length (Config.get (PaperCreate.abstract paper) []))
              <? min_abstract_length self)%Z
  then false
  else if negb (nonempty (PaperCreate.authors paper)) then false
  else if _is_spam paper then false
  else true.

Definition _passes_keyword_filter (self : t) (paper : PaperCreate.t) : bool :=
  let text := paper_text paper in
  if existsb (fun keyword => contains text keyword) (exclude_keywords self) then false
  else if nonempty (include_keywords self) then
    existsb (fun keyword => contains text keyword) (include_keywords self)
  else true.

Definition _passes_category_filter (self : t) (paper : PaperCreate.t) : bool :=
  if Normalize.is_news_source (PaperCreate.source paper) then true
  else
    let allowed_categories :=
      _parse_keywords (Config.get (Config.ARXIV_CATEGORIES (config self)) []) in
    if negb (nonempty allowed_categories) then true
    else
      match PaperCreate.categories paper with
      | None => true
      | Some [] => true
      | Some cats =>
          existsb (fun category => mem (lower category) (map lower allowed_categories))
                  cats
      end.

(** [now] is the reading of [datetime.utcnow()] *)
Definition _passes_date_filter (now : Datetime.datetime) (paper : PaperCreate.t) : bool :=
  match PaperCreate.published_at paper with
  | None => true
  | Some published_at => negb (Datetime.before_days_ago published_at now 30)
  end.

Definition _should_include_paper (self : t) (now : Datetime.datetime)
    (paper : PaperCreate.t) : bool :=
  if negb (_passes_quality_check self paper) then false
  else if negb (_passes_keyword_filter self paper) then false
  else if negb (_passes_category_filter self paper) then false
  else if negb (_passes_date_filter now paper) then false
  else true.

Definition filter_papers (self : t) (now : Datetime.datetime)
    (papers : list PaperCreate.t) : list PaperCreate.t :=
  filter (_should_include_paper self now) papers.


End ContentFilter.

(** PaperRanker *)
Module PaperRanker.

Local Open Scope float_scope.

Record t := mk {
  config : Config.dict;
  include_keywords : list pystr
}.

Definition __init__ (config : Config.dict) : t :=
  mk config (_parse_keywords (Config.get (Config.KEYWORDS_INCLUDE config) [])).

Definition _keyword_score (self : t) (text : pystr) : float :=
  if negb (nonempty (include_keywords self)) then 0.5
  else
    let total_keywords := length (include_keywords self) in
    let score :=
      fold_left
        (fun score keyword =>
           let count := PyStr.count text keyword in
           if (0 <? count)%nat then
             let title_matches := PyStr.count (firstn 200 text) keyword in
             let keyword_score :=
               PyFloat.min 1.0 (PyFloat.of_nat count * 0.2
                                + PyFloat.of_nat title_matches * 0.3) in
             score + keyword_score
           else score)
        (include_keywords self) 0.0 in
    if (0 <? total_keywords)%nat then score / PyFloat.of_nat total_keywords else 0.5.

Definition _recency_score (now : Datetime.datetime)
    (published_at : option Datetime.datetime) : float :=
  match published_at with
  | None => 0.3
  | Some published_at =>
      let days_old := Datetime.days_between now published_at in
      if (days_old <=? 1)%Z then 1.0
      else if (days_old <=? 7)%Z then 0.8
      else if (days_old <=? 30)%Z then 0.6
      else if (days_old <=? 90)%Z then 0.4
      else 0.2
  end.

Definition _quality_score (paper : PaperCreate.t) : float :=
  let score := 0.5 in
  let score :=
    if truthy (PaperCreate.abstract paper)
       && (200 <? length (Config.get (PaperCreate.abstract paper) []))%nat
    then score + 0.2 else score in
  let score :=
    if nonempty (PaperCreate.authors paper)
       && (1 <? length (PaperCreate.authors paper))%nat
    then score + PyFloat.min 0.2 (PyFloat.of_nat (length (PaperCreate.authors paper)) * 0.05)
    else score in
  let score := if truthy (PaperCreate.doi paper) then score + 0.1 else score in
  PyFloat.min 1.0 score.

Definition source_weights : list (pystr * float) :=
  [ (lit "arxiv", 0.8); (lit "crossref", 0.6); (lit "biorxiv", 0.7);
    (lit "medRxiv", 0.7) ].

Definition _source_score (source : pystr) : float :=
  match find (fun kv => PyStr.eqb (fst kv) (lower source)) source_weights with
  | Some kv => snd kv
  | None => 0.5
  end.

Definition preferred : list pystr :=
  [lit "cs.ai"; lit "cs.lg"; lit "cs.cl"; lit "cs.cv"; lit "stat.ml"].

Definition _category_score (categories : option (list pystr)) : float :=
  match categories with
  | None => 0.5
  | Some [] => 0.5
  | Some cats =>
      if existsb (fun category => mem (lower category) preferred) cats then 1.0
      else 0.6
  end.

Definition boost_terms : list pystr :=
  [lit "llm"; lit "large language model"; lit "gpt"; lit "artificial intelligence";
   lit "machine learning"].

(** the weighted sum, before the final clamp *)
Definition weighted_score (self : t) (now : Datetime.datetime) (paper : PaperCreate.t)
  : float :=
  let score := 0.0 in
  let text := paper_text paper in
  let score := score + _keyword_score self text * 0.4 in
  let score := score + _recency_score now (PaperCreate.published_at paper) * 0.2 in
  let score := score + _quality_score paper * 0.2 in
  let base_source_score := _source_score (PaperCreate.source paper) in
  let base_source_score :=
    if Normalize.is_news_source (PaperCreate.source paper)
    then PyFloat.min 1.0 (base_source_score + 0.15)
    else base_source_score in
  let score := score + base_source_score * 0.1 in
  let score := score + _category_score (PaperCreate.categories paper) * 0.1 in
  match PaperCreate.tags paper with
  | Some ((_ :: _) as tags) =>
      let tags_l := map lower tags in
      if existsb (fun tag => existsb (fun term => contains tag term) boost_terms) tags_l
      then PyFloat.min 1.0 (score + 0.1)
      else score
  | _ => score
  end.

Definition _calculate_relevance_score (self : t) (now : Datetime.datetime)
    (paper : PaperCreate.t) : float :=
  PyFloat.max 0.0 (PyFloat.min 1.0 (weighted_score self now paper)).

(** [list.sort(key=lambda x: x[1], reverse=True)]: stable, highest score first *)
Fixpoint insert_desc {A} (x : A * float) (l : list (A * float)) : list (A * float) :=
  match l with
  | [] => [x]
  | y :: l' => if snd x <? snd y then y :: insert_desc x l' else x :: l
  end.

Definition sort_desc {A} (l : list (A * float)) : list (A * float) :=
  fold_right insert_desc [] l.

Definition rank_papers (self : t) (now : Datetime.datetime)
    (papers : list PaperCreate.t) : list (PaperCreate.t * float) :=
  sort_desc (map (fun paper => (paper, _calculate_relevance_score self now paper)) papers).

(** highest score first: no entry is followed, anywhere behind it, by a
    higher score *)
Definition descending {A} (l : list (A * float)) : Prop :=
  StronglySorted (fun a b => (snd b <=? snd a) = true) l.

(** the lower-cased source is a key of [source_weights] *)
Definition recognized (source : pystr) : bool :=
  existsb (fun kv => PyStr.eqb (fst kv) (lower source)) source_weights.

End PaperRanker.

(** FilterRankPipeline *)
Module FilterRankPipeline.

Record t := mk {
  config : Config.dict;
  filter : ContentFilter.t;
  ranker : PaperRanker.t;
  max_papers : Z
}.

Definition __init__ (config : Config.dict) : t :=
  mk config (ContentFilter.__init__ config) (PaperRanker.__init__ config)
     (Config.get (Config.MAX_PAPERS_PER_DAY config) 5%Z).

Definition paper_in (paper : PaperCreate.t) (l : list PaperCreate.t) : bool :=
  existsb (PaperCreate.eqb paper) l.

Definition is_news (paper : PaperCreate.t) : bool :=
  Normalize.is_news_source (PaperCreate.source paper).

(** the loop that gathers further news items, with its [break] *)
Fixpoint collect_extra (needed : Z) (current_news top_papers : list PaperCreate.t)
    (news_items extra : list (PaperCreate.t * float)) : list (PaperCreate.t * float) :=
  match news_items with
  | [] => extra
  | (paper, score) :: rest =>
      let extra :=
        if negb (paper_in paper current_news) && negb (paper_in paper top_papers)
        then extra ++ [(paper, score)] else extra in
      if (needed <=? Z.of_nat (length extra))%Z then extra
      else collect_extra needed current_news top_papers rest extra
  end.

(** steps 2 and 3 of [process_papers], on the papers that passed the filter *)
Definition select (self : t) (ranked_papers : list (PaperCreate.t * float))
  : list PaperCreate.t :=
  let top_papers_scored := slice_to ranked_papers (max_papers self) in
  let min_news_quota := Config.get (Config.MIN_NEWS_QUOTA (config self)) 2%Z in
  let news_items := List.filter (fun ps => is_news (fst ps)) ranked_papers in
  let current_news := List.filter is_news (map fst top_papers_scored) in
  let top_papers_scored :=
    if (Z.of_nat (length current_news) <? min_news_quota)%Z && nonempty news_items then
      let needed := (min_news_quota - Z.of_nat (length current_news))%Z in
      let extra :=
        collect_extra needed current_news (map fst top_papers_scored) news_items [] in
      if nonempty extra then
        let combined := PaperRanker.sort_desc (top_papers_scored ++ extra) in
        slice_to combined (max_papers self)
      else top_papers_scored
    else top_papers_scored in
  map fst top_papers_scored.

Definition process_papers (self : t) (now : Datetime.datetime)
    (papers : list PaperCreate.t) : list PaperCreate.t :=
  let filtered_papers := ContentFilter.filter_papers (filter self) now papers in
  if negb (nonempty filtered_papers) then []
  else select self (PaperRanker.rank_papers (ranker self) now filtered_papers).

End FilterRankPipeline.

Definition create_filter_rank_pipeline (config : Config.dict) : FilterRankPipeline.t :=
  FilterRankPipeline.__init__ config.

End FilterRank.

(** ** The Thai texts of pipeline/summarize.py, as code points *)

Module Thai.

(** and colleagues (with its leading space) *)
Definition and_others : pystr :=
  [ 32; 3649; 3621; 3632; 3588; 3603; 3632 ]%N.

(** researchers from (with its trailing space) *)
Definition researchers_from : pystr :=
  [ 3609; 3633; 3585; 3623; 3636; 3592; 3633; 3618; 3592; 3634; 3585; 32 ]%N.

(** researchers *)
Definition researchers : pystr :=
  [ 3609; 3633; 3585; 3623; 3636; 3592; 3633; 3618 ]%N.

(** have presented the study titled, up to the opening quote *)
Definition presented : pystr :=
  [ 3652; 3604; 3657; 3609; 3635; 3648; 3626; 3609; 3629; 3591; 3634; 3609;
    3623; 3636; 3592; 3633; 3618; 3648; 3619; 3639; 3656; 3629; 3591; 32;
    34 ]%N.

(** which addresses the problem of *)
Definition problem_clause : pystr :=
  [ 3595; 3638; 3656; 3591; 3648; 3611; 3655; 3609; 3585; 3634; 3619; 3649;
    3585; 3657; 3611; 3633; 3597; 3627; 3634 ]%N.

(** by the method of *)
Definition method_clause : pystr :=
  [ 3650; 3604; 3618; 3651; 3594; 3657; 3623; 3636; 3608; 3637 ]%N.

(** the study found that *)
Definition results_clause : pystr :=
  [ 3612; 3621; 3585; 3634; 3619; 3623; 3636; 3592; 3633; 3618; 3614; 3610;
    3623; 3656; 3634 ]%N.

(** this study has potential for future application *)
Definition potential : pystr :=
  [ 3591; 3634; 3609; 3623; 3636; 3592; 3633; 3618; 3609; 3637; 3657; 3617;
    3637; 3624; 3633; 3585; 3618; 3616; 3634; 3614; 3651; 3609; 3585; 3634;
    3619; 3609; 3635; 3652; 3611; 3611; 3619; 3632; 3618; 3640; 3585; 3605;
    3660; 3651; 3594; 3657; 3651; 3609; 3629; 3609; 3634; 3588; 3605 ]%N.

(** academic journal *)
Definition journal : pystr :=
  [ 3623; 3634; 3619; 3626; 3634; 3619; 3623; 3636; 3594; 3634; 3585; 3634;
    3619 ]%N.

(** this study was published in (with its trailing space) *)
Definition published_in : pystr :=
  [ 3591; 3634; 3609; 3623; 3636; 3592; 3633; 3618; 3609; 3637; 3657; 3606;
    3641; 3585; 3648; 3612; 3618; 3649; 3614; 3619; 3656; 3651; 3609; 32 ]%N.

(** new research about (with its trailing space) *)
Definition tldr_about : pystr :=
  [ 3591; 3634; 3609; 3623; 3636; 3592; 3633; 3618; 3651; 3627; 3617; 3656;
    3648; 3585; 3637; 3656; 3618; 3623; 3585; 3633; 3610; 32 ]%N.

(** new research in the field of (with its trailing space) *)
Definition tldr_field : pystr :=
  [ 3591; 3634; 3609; 3623; 3636; 3592; 3633; 3618; 3651; 3627; 3617; 3656;
    3651; 3609; 3626; 3634; 3586; 3634; 32 ]%N.

(** that is interesting (with its leading space) *)
Definition tldr_interesting : pystr :=
  [ 32; 3607; 3637; 3656; 3609; 3656; 3634; 3626; 3609; 3651; 3592 ]%N.

(** topic label for the title keyword machine learning *)
Definition topic_1 : pystr :=
  [ 3585; 3634; 3619; 3648; 3619; 3637; 3618; 3609; 3619; 3641; 3657; 3586;
    3629; 3591; 3648; 3588; 3619; 3639; 3656; 3629; 3591 ]%N.

(** topic label for the title keyword deep learning *)
Definition topic_2 : pystr :=
  [ 3585; 3634; 3619; 3648; 3619; 3637; 3618; 3609; 3619; 3641; 3657; 3648;
    3594; 3636; 3591; 3621; 3638; 3585 ]%N.

(** topic label for the title keyword neural network *)
Definition topic_3 : pystr :=
  [ 3650; 3588; 3619; 3591; 3586; 3656; 3634; 3618; 3611; 3619; 3632; 3626;
    3634; 3607; 3648; 3607; 3637; 3618; 3617 ]%N.

(** topic label for the title keyword computer vision *)
Definition topic_4 : pystr :=
  [ 3585; 3634; 3619; 3617; 3629; 3591; 3648; 3627; 3655; 3609; 3604; 3657;
    3623; 3618; 3588; 3629; 3617; 3614; 3636; 3623; 3648; 3605; 3629; 3619;
    3660 ]%N.

(** topic label for the title keyword natural language *)
Definition topic_5 : pystr :=
  [ 3585; 3634; 3619; 3611; 3619; 3632; 3617; 3623; 3621; 3612; 3621; 3616;
    3634; 3625; 3634; 3608; 3619; 3619; 3617; 3594; 3634; 3605; 3636 ]%N.

(** topic label for the title keyword artificial intelligence *)
Definition topic_6 : pystr :=
  [ 3611; 3633; 3597; 3597; 3634; 3611; 3619; 3632; 3604; 3636; 3625; 3600;
    3660 ]%N.

(** topic label for the title keyword diffusion *)
Definition topic_7 : pystr :=
  [ 3649; 3610; 3610; 3592; 3635; 3621; 3629; 3591; 32; 68; 105; 102;
    102; 117; 115; 105; 111; 110 ]%N.

(** topic label for the title keyword transformers *)
Definition topic_8 : pystr :=
  [ 3650; 3617; 3648; 3604; 3621; 32; 84; 114; 97; 110; 115; 102;
    111; 114; 109; 101; 114; 115 ]%N.

(** AI technology *)
Definition default_topic : pystr :=
  [ 3648; 3607; 3588; 3650; 3609; 3650; 3621; 3618; 3637; 32; 65; 73 ]%N.

(** improves performance by (with its trailing space) *)
Definition improved_by : pystr :=
  [ 3611; 3619; 3633; 3610; 3611; 3619; 3640; 3591; 3611; 3619; 3632; 3626;
    3636; 3607; 3608; 3636; 3616; 3634; 3614; 3652; 3604; 3657; 32 ]%N.

(** gives better results than the previous method *)
Definition better_than_before : pystr :=
  [ 3651; 3627; 3657; 3612; 3621; 3621; 3633; 3614; 3608; 3660; 3607; 3637;
    3656; 3604; 3637; 3585; 3623; 3656; 3634; 3623; 3636; 3608; 3637; 3648;
    3604; 3636; 3617 ]%N.

(** the study titled, up to the opening quote *)
Definition fallback_head : pystr :=
  [ 3591; 3634; 3609; 3623; 3636; 3592; 3633; 3618; 3648; 3619; 3639; 3656;
    3629; 3591; 32; 34 ]%N.

(** closing quote and the fixed remainder of the fallback summary *)
Definition fallback_tail : pystr :=
  [ 34; 32; 3648; 3611; 3655; 3609; 3585; 3634; 3619; 3624; 3638; 3585;
    3625; 3634; 3607; 3637; 3656; 3609; 3656; 3634; 3626; 3609; 3651; 3592;
    3651; 3609; 3626; 3634; 3586; 3634; 3648; 3607; 3588; 3650; 3609; 3650;
    3621; 3618; 3637; 32; 3650; 3604; 3618; 3609; 3635; 3648; 3626; 3609;
    3629; 3649; 3609; 3623; 3607; 3634; 3591; 3651; 3627; 3617; 3656; 3651;
    3609; 3585; 3634; 3619; 3649; 3585; 3657; 3611; 3633; 3597; 3627; 3634;
    3607; 3637; 3656; 3648; 3585; 3637; 3656; 3618; 3623; 3586; 3657; 3629;
    3591; 32; 3591; 3634; 3609; 3623; 3636; 3592; 3633; 3618; 3609; 3637;
    3657; 3617; 3637; 3624; 3633; 3585; 3618; 3616; 3634; 3614; 3651; 3609;
    3585; 3634; 3619; 3609; 3635; 3652; 3611; 3611; 3619; 3632; 3618; 3640;
    3585; 3605; 3660; 3651; 3594; 3657; 3651; 3609; 3629; 3609; 3634; 3588;
    3605 ]%N.

(** interesting new research in technology *)
Definition fallback_tldr : pystr :=
  [ 3591; 3634; 3609; 3623; 3636; 3592; 3633; 3618; 3651; 3627; 3617; 3656;
    3607; 3637; 3656; 3609; 3656; 3634; 3626; 3609; 3651; 3592; 3651; 3609;
    3626; 3634; 3586; 3634; 3648; 3607; 3588; 3650; 3609; 3650; 3621; 3618;
    3637 ]%N.

(** the Thai label meaning Summary, with its colon *)
Definition phrase_sarup : pystr :=
  [ 3626; 3619; 3640; 3611; 58 ]%N.

(** the Thai label meaning Abstract, with its colon *)
Definition phrase_abstract : pystr :=
  [ 3610; 3607; 3588; 3633; 3604; 3618; 3656; 3629; 58 ]%N.

(** the Thai label meaning News summary, with its colon *)
Definition phrase_news_summary : pystr :=
  [ 3586; 3656; 3634; 3623; 3626; 3619; 3640; 3611; 58 ]%N.

(** U+0E19 and U+0E07, the first characters of the templates *)
Definition NO_NU : pychar := 3609%N.
Definition NGO_NGU : pychar := 3591%N.

End Thai.

(** ** pipeline/summarize.py *)

Module Summarize.

Import Re.

(** BaseSummarizer: the attributes set by [__init__] *)
Module BaseSummarizer.

Record t := mk {
  config : Config.dict;
  min_length : Z;
  max_length : Z;
  tldr_max_sentences : Z
}.

Definition __init__ (config : Config.dict) : t :=
  mk config
     (Config.get (Config.SUMMARY_MIN_LENGTH config) 150%Z)
     (Config.get (Config.SUMMARY_MAX_LENGTH config) 250%Z)
     (Config.get (Config.TLDR_MAX_LENGTH config) 2%Z).

Definition bold : re :=
  Cat (Str (lit "**")) (Cat (Grp (LazyStar dot)) (Str (lit "**"))).
Definition italic : re := Cat (Chr 42%N) (Cat (Grp (LazyStar dot)) (Chr 42%N)).
Definition code : re := Cat (Chr 96%N) (Cat (Grp (LazyStar dot)) (Chr 96%N)).

Definition unwanted_phrases : list pystr :=
  [ lit "TL;DR:"; lit "TLDR:"; Thai.phrase_sarup; lit "Summary:";
    lit "Abstract:"; Thai.phrase_abstract; Thai.phrase_news_summary ].

Definition _clean_text (text : pystr) : pystr :=
  if nonempty text then
    let text := collapse text in
    let text := sub1 bold text in
    let text := sub1 italic text in
    let text := sub1 code text in
    fold_left (fun text phrase => strip (replace text phrase [])) unwanted_phrases text
  else [].

(** the length check only logs a warning *)
Definition _validate_summary (summary tldr : pystr) : pystr * pystr :=
  (_clean_text summary, _clean_text tldr).

(** a character that [_clean_text] never removes from the front of a text:
    neither whitespace nor a markdown delimiter nor the first character of
    an unwanted phrase *)
Definition safe_head (c : pychar) : bool :=
  negb (isspace c) && negb (c =? 42)%N && negb (c =? 96)%N
  && forallb (fun phrase => match phrase with
                            | [] => false
                            | h :: _ => negb (h =? c)%N
                            end) unwanted_phrases.

End BaseSummarizer.

Module RuleBasedSummarizer.

Definition concept_keywords : list pystr :=
  map lit
    [ "machine learning"; "deep learning"; "neural network"; "ai";
      "artificial intelligence"; "computer vision"; "natural language processing";
      "nlp"; "transformers"; "diffusion"; "gan"; "generative"; "classification";
      "regression" ]%string.

(** [text.lower()] raises on [None] *)
Definition _extract_key_concepts (text : option pystr) : result (list pystr) :=
  match text with
  | None => Raise (AttributeError "NoneType" "lower")
  | Some text =>
      let text_lower := lower text in
      Ok (firstn 3 (filter (fun keyword => contains text_lower keyword) concept_keywords))
  end.

Definition stop (c : pychar) : bool := (c =? 46)%N || (c =? 44)%N.

(** [<words>\s+(.*?)[\.\,]] *)
Definition clause (words : re) : re :=
  Cat words (Cat (Plus isspace) (Cat (Grp (LazyStar dot)) (Cls stop))).

(** [<word>[s]?] *)
Definition plural (word : string) : re := Cat (Str (lit word)) (Opt (Chr 115%N)).

Definition problem_patterns : list re :=
  [ clause (plural "problem"); clause (plural "challenge"); clause (plural "issue");
    clause (Str (lit "difficulty")) ].

Definition method_patterns : list re :=
  [ clause (Str (lit "we propose")); clause (Str (lit "we present"));
    clause (Str (lit "we introduce")); clause (Str (lit "our method"));
    clause (Str (lit "approach")) ].

Definition result_patterns : list re :=
  [ clause (Str (lit "results show")); clause (Str (lit "we show"));
    clause (plural "demonstrate"); clause (plural "achieve"); clause (plural "improve") ].

(** the first pattern that is found gives [match.group(1).strip()[:100]] *)
Fixpoint first_clause (patterns : list re) (abstract : pystr) : pystr :=
  match patterns with
  | [] => []
  | pattern :: rest =>
      match search true pattern abstract with
      | Some caps => firstn 100 (strip (group caps 1))
      | None => first_clause rest abstract
      end
  end.

Definition _extract_problem (abstract : pystr) : pystr :=
  first_clause problem_patterns abstract.

Definition _extract_method (abstract : pystr) : pystr :=
  first_clause method_patterns abstract.

Definition _extract_results (abstract : pystr) : pystr :=
  first_clause result_patterns abstract.

Definition topic_map : list (pystr * pystr) :=
  [ (lit "machine learning", Thai.topic_1);
    (lit "deep learning", Thai.topic_2);
    (lit "neural network", Thai.topic_3);
    (lit "computer vision", Thai.topic_4);
    (lit "natural language", Thai.topic_5);
    (lit "artificial intelligence", Thai.topic_6);
    (lit "diffusion", Thai.topic_7);
    (lit "transformers", Thai.topic_8) ].

Definition _extract_main_topic (title : pystr) : pystr :=
  let title_lower := lower title in
  match find (fun kv => contains title_lower (fst kv)) topic_map with
  | Some kv => snd kv
  | None => Thai.default_topic
  end.

(** [(\d+)%?\s*(improvement|better|increase|decrease)] *)
Definition percentage : re :=
  Cat (Grp (Plus isdigit))
    (Cat (Opt (Chr 37%N))
       (Cat (Star isspace)
          (Grp (Alt (Str (lit "improvement"))
                  (Alt (Str (lit "better"))
                     (Alt (Str (lit "increase")) (Str (lit "decrease")))))))).

(** [outperform|better than|superior to] *)
Definition outperform : re :=
  Alt (Str (lit "outperform")) (Alt (Str (lit "better than")) (Str (lit "superior to"))).

Definition _extract_key_result (abstract : pystr) : pystr :=
  match search true percentage abstract with
  | Some caps => Thai.improved_by ++ group caps 1 ++ lit "%"
  | None =>
      match search true outperform abstract with
      | Some _ => Thai.better_than_before
      | None => []
      end
  end.

Definition source_text (source : pystr) : pystr :=
  match
    find (fun kv => PyStr.eqb (fst kv) (lower source))
      [ (lit "arxiv", lit "arXiv"); (lit "crossref", Thai.journal);
        (lit "biorxiv", lit "bioRxiv"); (lit "medrxiv", lit "medRxiv") ]
  with
  | Some kv => snd kv
  | None => source
  end.

Definition _create_template_summary (title : pystr) (abstract : option pystr)
    (authors : list pystr) (source : pystr) : result pystr :=
  rbind (_extract_key_concepts abstract) (fun key_concepts =>
  let abstract := Config.get abstract [] in
  let problem := _extract_problem abstract in
  let method := _extract_method abstract in
  let results := _extract_results abstract in
  let opening :=
    if nonempty authors then
      let author_text := join (lit ", ") (firstn 2 authors) in
      let author_text :=
        if (2 <? length authors)%nat then author_text ++ Thai.and_others
        else author_text in
      Thai.researchers_from ++ author_text
    else Thai.researchers in
  let summary_parts :=
    [opening; Thai.presented ++ title ++ [34%N]]
    ++ (if nonempty problem then [Thai.problem_clause ++ problem] else [])
    ++ (if nonempty method then [Thai.method_clause ++ method] else [])
    ++ (if nonempty results then [Thai.results_clause ++ results] else [Thai.potential])
    ++ [Thai.published_in ++ source_text source] in
  Ok (join (lit " ") summary_parts ++ lit ".")).

Definition _create_template_tldr (title : pystr) (abstract : option pystr)
  : result pystr :=
  match abstract with
  | None => Raise (TypeError "expected string or bytes-like object")
  | Some abstract =>
      let key_result := _extract_key_result abstract in
      if nonempty key_result then
        Ok (Thai.tldr_about ++ _extract_main_topic title ++ lit " " ++ key_result)
      else
        Ok (Thai.tldr_field ++ _extract_main_topic title ++ Thai.tldr_interesting)
  end.

(** [len(s.split())] *)
Definition word_count (s : pystr) : nat := length (split s).

Definition _create_fallback_summary (paper : PaperCreate.t) : SummaryResponse.t :=
  let summary := Thai.fallback_head ++ PaperCreate.title paper ++ Thai.fallback_tail in
  SummaryResponse.mk summary Thai.fallback_tldr (word_count summary).

(** the body of the [try] block of [summarize] *)
Definition summarize_body (paper : PaperCreate.t) : result SummaryResponse.t :=
  let title := PaperCreate.title paper in
  let abstract := PaperCreate.abstract paper in
  let authors := firstn 3 (PaperCreate.authors paper) in
  rbind (_create_template_summary title abstract authors (PaperCreate.source paper))
    (fun summary =>
  rbind (_create_template_tldr title abstract) (fun tldr =>
  let '(summary, tldr) := BaseSummarizer._validate_summary summary tldr in
  Ok (SummaryResponse.mk summary tldr (word_count summary)))).

Definition summarize (self : BaseSummarizer.t) (paper : PaperCreate.t)
  : SummaryResponse.t :=
  match summarize_body paper with
  | Ok response => response
  | Raise _ => _create_fallback_summary paper
  end.

End RuleBasedSummarizer.

(** What the process finds installed: whether the two provider SDKs can be
    imported, and what constructing a client with a given key does. *)
Record Sdk := {
  OPENAI_AVAILABLE : bool;
  ANTHROPIC_AVAILABLE : bool;
  openai_client : pystr -> result unit;
  anthropic_client : pystr -> result unit
}.

(** the three classes of summarizer, with the attributes their constructors set *)
Inductive Summarizer :=
| RuleBased (base : BaseSummarizer.t)
| OpenAI (base : BaseSummarizer.t) (api_key model : pystr)
| Anthropic (base : BaseSummarizer.t) (api_key model : pystr).

Definition isinstance_RuleBasedSummarizer (s : Summarizer) : bool :=
  match s with
  | RuleBased _ => true
  | _ => false
  end.

Definition OpenAISummarizer__init__ (sdk : Sdk) (config : Config.dict)
  : result Summarizer :=
  let base := BaseSummarizer.__init__ config in
  if negb (OPENAI_AVAILABLE sdk) then Raise (OtherError "OpenAI library not available")
  else
    let api_key := Config.OPENAI_API_KEY config in
    if negb (truthy api_key) then Raise (ValueError "OPENAI_API_KEY not provided")
    else
      rbind (openai_client sdk (Config.get api_key [])) (fun _ =>
      Ok (OpenAI base (Config.get api_key [])
            (Config.get (Config.OPENAI_MODEL config) (lit "gpt-4o-mini")))).

Definition AnthropicSummarizer__init__ (sdk : Sdk) (config : Config.dict)
  : result Summarizer :=
  let base := BaseSummarizer.__init__ config in
  if negb (ANTHROPIC_AVAILABLE sdk)
  then Raise (OtherError "Anthropic library not available")
  else
    let api_key := Config.ANTHROPIC_API_KEY config in
    if negb (truthy api_key) then Raise (ValueError "ANTHROPIC_API_KEY not provided")
    else
      rbind (anthropic_client sdk (Config.get api_key [])) (fun _ =>
      Ok (Anthropic base (Config.get api_key [])
            (Config.get (Config.ANTHROPIC_MODEL config) (lit "claude-3-haiku-20240307")))).

Module SummarizerFactory.

Definition create_summarizer (sdk : Sdk) (config : Config.dict) : Summarizer :=
  let mode := lower (Config.get (Config.SUMMARIZER_MODE config) (lit "rule_based")) in
  if PyStr.eqb mode (lit "openai") && OPENAI_AVAILABLE sdk then
    match OpenAISummarizer__init__ sdk config with
    | Ok s => s
    | Raise _ => RuleBased (BaseSummarizer.__init__ config)
    end
  else if PyStr.eqb mode (lit "anthropic") && ANTHROPIC_AVAILABLE sdk then
    match AnthropicSummarizer__init__ sdk config with
    | Ok s => s
    | Raise _ => RuleBased (BaseSummarizer.__init__ config)
    end
  else RuleBased (BaseSummarizer.__init__ config).

End SummarizerFactory.

Definition create_summarizer (sdk : Sdk) (config : Config.dict) : Summarizer :=
  SummarizerFactory.create_summarizer sdk config.

End Summarize.

(** ** storage/db.py: the table [seen_papers] behind a session

    A session holds the rows of the table and the objects added with
    [db.add] that are not yet written.  [commit] writes them in order; the
    UNIQUE constraint on [identifier] makes an insert fail with
    IntegrityError, and nothing of a failed commit stays in the table. *)

Module Storage.












Module SeenPaperRepository.




End SeenPaperRepository.

End Storage.

(** ** delivery/formatter.py and delivery/discord_post.py *)

Module Delivery.

(** The embeds the formatter builds, by kind.  The footers' clock readings
    and the rendering of a paper embed are left out. *)
Inductive Embed :=
| PaperEmbed (position : nat) (paper : PaperCreate.t) (summary : SummaryResponse.t)
| HeaderEmbed (paper_count : nat)
| NoPapersEmbed
| ErrorEmbed (error_message : pystr)
| TestEmbed.

(** the dictionaries returned by the posting methods *)
Record DiscordResult := mkResult {
  success : bool;
  error : option pystr;
  dry_run : bool;
  embed_count : option nat
}.

(** What has been handed to Discord so far, one entry per [post_embeds] call
    of the transport. *)
Record World := mkWorld {
  sent : list (list Embed)
}.

(** Computations that may raise and that act on the world; the effects made
    before an exception stay. *)
Definition M (A : Type) : Type := World -> result A * World.

Definition ret {A} (a : A) : M A := fun w => (Ok a, w).

Definition raise {A} (e : exn) : M A := fun w => (Raise e, w).

Definition bind {A B} (m : M A) (k : A -> M B) : M B :=
  fun w =>
    match m w with
    | (Ok a, w') => k a w'
    | (Raise e, w') => (Raise e, w')
    end.

(** [try: m  except Exception as e: h e] *)
Definition try_except {A} (m : M A) (h : exn -> M A) : M A :=
  fun w =>
    match m w with
    | (Ok a, w') => (Ok a, w')
    | (Raise e, w') => h e w'
    end.

Definition lift {A} (r : result A) : M A := fun w => (r, w).

Notation "x <- m ;; k" := (bind m (fun x => k))
  (at level 61, m at next level, right associativity).

Definition quote (s : string) : pystr := lit "'" ++ lit s ++ lit "'".

(** [str(e)] *)
Definition str_of_exn (e : exn) : pystr :=
  match e with
  | AttributeError cls attr =>
      quote cls ++ lit " object has no attribute " ++ quote attr
  | ValueError msg => lit msg
  | TypeError msg => lit msg
  | UnicodeEncodeError => lit "'utf-8' codec can't encode character: surrogates not allowed"
  | IntegrityError => lit "IntegrityError"
  | OtherError msg => lit msg
  end.

(** the argument and the value of a dynamically dispatched call *)
Inductive arg :=
| NoArg
| EmbedsArg (embeds : list Embed)
| PapersArg (papers_with_summaries : list (PaperCreate.t * SummaryResponse.t))
| StrArg (s : pystr)
| IntArg (n : nat).

Inductive value :=
| VDict (r : DiscordResult)
| VBool (b : bool)
| VEmbed (e : Embed)
| VEmbeds (l : list Embed).

Definition assoc {A} (name : string) (l : list (string * A)) : option A :=
  match find (fun kv => String.eqb (fst kv) name) l with
  | Some kv => Some (snd kv)
  | None => None
  end.

Definition bad_argument {A} : M A := raise (TypeError "unexpected argument").

(** DiscordFormatter *)
Module DiscordFormatter.

Definition _create_no_papers_embed : Embed := NoPapersEmbed.

Definition _create_header_embed (paper_count : nat) : Embed := HeaderEmbed paper_count.

Definition _create_paper_embed (paper : PaperCreate.t) (summary : SummaryResponse.t)
    (position : nat) : Embed :=
  PaperEmbed position paper summary.

Fixpoint paper_embeds (i : nat) (l : list (PaperCreate.t * SummaryResponse.t))
  : list Embed :=
  match l with
  | [] => []
  | (paper, summary) :: rest =>
      _create_paper_embed paper summary (i + 1) :: paper_embeds (S i) rest
  end.

Definition format_papers_as_embeds
    (papers_with_summaries : list (PaperCreate.t * SummaryResponse.t)) : list Embed :=
  if negb (nonempty papers_with_summaries) then [_create_no_papers_embed]
  else
    let embeds := paper_embeds 0 papers_with_summaries in
    if (1 <? length embeds)%nat then _create_header_embed (length embeds) :: embeds
    else embeds.

Definition format_error_embed (error_message : pystr) : Embed := ErrorEmbed error_message.

Definition format_test_embed : Embed := TestEmbed.

(** The methods the class defines that build embeds, by name.  (Its string
    helpers [_format_title], [_format_description], [_format_authors],
    [_format_source], [_format_tags], [_get_source_color],
    [_get_current_time_str] and [_get_current_date_str] build no embed and
    are not listed.) *)
Definition methods : list (string * (arg -> M value)) :=
  [ ("format_papers_as_embeds",
     fun a => match a with
              | PapersArg l => ret (VEmbeds (format_papers_as_embeds l))
              | _ => bad_argument
              end);
    ("_create_header_embed",
     fun a => match a with
              | IntArg n => ret (VEmbed (_create_header_embed n))
              | _ => bad_argument
              end);
    ("_create_no_papers_embed",
     fun a => match a with
              | NoArg => ret (VEmbed _create_no_papers_embed)
              | _ => bad_argument
              end);
    ("format_error_embed",
     fun a => match a with
              | StrArg s => ret (VEmbed (format_error_embed s))
              | _ => bad_argument
              end);
    ("format_test_embed",
     fun a => match a with
              | NoArg => ret (VEmbed format_test_embed)
              | _ => bad_argument
              end) ]%string.

(** [formatter.name(a)] *)
Definition invoke (name : string) (a : arg) : M value :=
  match assoc name methods with
  | Some f => f a
  | None => raise (AttributeError "DiscordFormatter" name)
  end.

End DiscordFormatter.

(** The transport chosen at construction ([self.poster]): a
    DiscordWebhookPoster or a DiscordBotPoster.  [respond] is the outcome of
    its [post_embeds] for a non-empty list of embeds; an empty list is
    refused without contacting Discord. *)
Record Transport := mkTransport {
  respond : list Embed -> DiscordResult
}.

Definition transport_post_embeds (poster : Transport) (embeds : list Embed)
  : M DiscordResult :=
  if negb (nonempty embeds)
  then ret (mkResult false (Some (lit "No embeds provided")) false None)
  else fun w => (Ok (respond poster embeds), mkWorld (sent w ++ [embeds])).

(** DiscordPoster *)
Module DiscordPoster.

Record t := mk {
  config : Config.dict;
  dry_run : bool;
  poster : Transport;
  method : string
}.

Definition __init__ (config : Config.dict) (DISCORD_PY_AVAILABLE : bool)
    (webhook bot : Transport) : result t :=
  let dry_run := Config.get (Config.DRY_RUN config) false in
  if truthy (Config.DISCORD_WEBHOOK_URL config)
  then Ok (mk config dry_run webhook "webhook")
  else if truthy (Config.DISCORD_BOT_TOKEN config) && DISCORD_PY_AVAILABLE
  then Ok (mk config dry_run bot "bot")
  else Raise (ValueError
                "No Discord posting method available (need WEBHOOK_URL or BOT_TOKEN)").

Definition failure (e : exn) : DiscordResult :=
  mkResult false (Some (str_of_exn e)) false None.

Definition as_embeds (v : value) : M (list Embed) :=
  match v with
  | VEmbeds l => ret l
  | _ => raise (TypeError "not a list of embeds")
  end.

Definition as_embed (v : value) : M Embed :=
  match v with
  | VEmbed e => ret e
  | _ => raise (TypeError "not an embed")
  end.

Definition post_papers (self : t)
    (papers_with_summaries : list (PaperCreate.t * SummaryResponse.t))
  : M DiscordResult :=
  try_except
    (v <- DiscordFormatter.invoke "format_papers_as_embeds"
            (PapersArg papers_with_summaries) ;;
     embeds <- as_embeds v ;;
     if dry_run self
     then ret (mkResult true None true (Some (length embeds)))
     else transport_post_embeds (poster self) embeds)
    (fun e => ret (failure e)).

Definition post_error (self : t) (error_message : pystr) : M DiscordResult :=
  try_except
    (v <- DiscordFormatter.invoke "format_error_embed" (StrArg error_message) ;;
     error_embed <- as_embed v ;;
     if dry_run self
     then ret (mkResult true None true None)
     else transport_post_embeds (poster self) [error_embed])
    (fun e => ret (failure e)).

Definition post_test_message (self : t) : M DiscordResult :=
  try_except
    (v <- DiscordFormatter.invoke "format_test_embed" NoArg ;;
     test_embed <- as_embed v ;;
     if dry_run self
     then ret (mkResult true None true None)
     else transport_post_embeds (poster self) [test_embed])
    (fun e => ret (failure e)).

(** The methods of the class, by name.  [test_connection] contacts Discord
    without posting an embed and is not modelled. *)
Definition methods : list (string * (t -> arg -> M value)) :=
  [ ("post_papers",
     fun self a => match a with
                   | PapersArg l => r <- post_papers self l ;; ret (VDict r)
                   | _ => bad_argument
                   end);
    ("post_error",
     fun self a => match a with
                   | StrArg s => r <- post_error self s ;; ret (VDict r)
                   | _ => bad_argument
                   end);
    ("post_test_message",
     fun self a => match a with
                   | NoArg => r <- post_test_message self ;; ret (VDict r)
                   | _ => bad_argument
                   end) ]%string.

(** the attributes of an instance: those [__init__] sets, then the methods *)
Definition attributes : list string :=
  [ "config"; "formatter"; "dry_run"; "poster"; "method";
    "post_papers"; "post_error"; "test_connection"; "post_test_message" ]%string.

(** [self.name(a)]: the attribute is looked up before the argument is evaluated *)
Definition invoke (self : t) (name : string) (a : M arg) : M value :=
  match assoc name methods with
  | Some f => x <- a ;; f self x
  | None =>
      if existsb (String.eqb name) attributes
      then raise (TypeError "object is not callable or is not modelled")
      else raise (AttributeError "DiscordPoster" name)
  end.

Definition as_dict (v : value) : M DiscordResult :=
  match v with
  | VDict r => ret r
  | _ => raise (TypeError "not a dict")
  end.

End DiscordPoster.

End Delivery.

(** ** app.py *)

Module App.

Import Delivery.

(** the dictionaries returned by [run_daily_pipeline], without [runtime_seconds] *)
Record PipelineResult := mkPipelineResult {
  success : bool;
  error : option pystr;
  papers_fetched : nat;
  papers_processed : nat;
  discord_result : DiscordResult
}.

(** An initialized bot.  [fetch_papers] is what the fetcher manager brings
    back from the network in this run, [summarize] the configured
    summarizer, [store_papers] the database step. *)
Record LLMNewsBot := mkBot {
  fetch_papers : M (list PaperMetadata.t);
  normalize_papers : list PaperMetadata.t -> list PaperCreate.t;
  process_papers : list PaperCreate.t -> list PaperCreate.t;
  summarize : PaperCreate.t -> result SummaryResponse.t;
  store_papers : list PaperCreate.t -> M unit;
  discord_poster : DiscordPoster.t
}.

(** Cannot summarize the papers *)
Definition summarization_failed : pystr :=
  [ 3652; 3617; 3656; 3626; 3634; 3617; 3634; 3619; 3606; 3626; 3619; 3640;
    3611; 3591; 3634; 3609; 3623; 3636; 3592; 3633; 3618; 3652; 3604; 3657 ]%N.

(** [self.discord_poster.post_embeds([self.discord_poster.formatter.format_no_papers_embed()])] *)
Definition post_no_papers (self : LLMNewsBot) : M DiscordResult :=
  v <- DiscordPoster.invoke (discord_poster self) "post_embeds"
         (e <- DiscordFormatter.invoke "format_no_papers_embed" NoArg ;;
          e <- DiscordPoster.as_embed e ;;
          ret (EmbedsArg [e])) ;;
  DiscordPoster.as_dict v.

(** the summaries that could be made, in order *)
Definition summarize_all (self : LLMNewsBot) (top_papers : list PaperCreate.t)
  : list (PaperCreate.t * SummaryResponse.t) :=
  flat_map
    (fun paper =>
       match summarize self paper with
       | Ok summary => [(paper, summary)]
       | Raise _ => []
       end)
    top_papers.

Definition call_dict (self : LLMNewsBot) (name : string) (a : arg) : M DiscordResult :=
  v <- DiscordPoster.invoke (discord_poster self) name (ret a) ;;
  DiscordPoster.as_dict v.

(** the body of the [try] block *)
Definition pipeline_body (self : LLMNewsBot) : M PipelineResult :=
  papers <- fetch_papers self ;;
  if negb (nonempty papers) then
    result <- post_no_papers self ;;
    ret (mkPipelineResult true None 0 0 result)
  else
    let normalized_papers := normalize_papers self papers in
    let top_papers := process_papers self normalized_papers in
    if negb (nonempty top_papers) then
      result <- post_no_papers self ;;
      ret (mkPipelineResult true None (length papers) 0 result)
    else
      let papers_with_summaries := summarize_all self top_papers in
      if negb (nonempty papers_with_summaries) then
        result <- call_dict self "post_error" (StrArg summarization_failed) ;;
        ret (mkPipelineResult false (Some (lit "Summarization failed"))
               (length papers) 0 result)
      else
        _ <- store_papers self top_papers ;;
        discord_result <- call_dict self "post_papers" (PapersArg papers_with_summaries) ;;
        if Delivery.success discord_result then
          ret (mkPipelineResult true None (length papers)
                 (length papers_with_summaries) discord_result)
        else
          ret (mkPipelineResult false (Delivery.error discord_result) (length papers)
                 (length papers_with_summaries) discord_result).

Definition run_daily_pipeline (self : LLMNewsBot) : M PipelineResult :=
  try_except (pipeline_body self)
    (fun e =>
       error_result <-
         try_except (call_dict self "post_error" (StrArg (str_of_exn e)))
           (fun discord_error =>
              ret (mkResult false (Some (str_of_exn discord_error)) false None)) ;;
       ret (mkPipelineResult false (Some (str_of_exn e)) 0 0 error_result)).

(** the message of the AttributeError raised by [discord_poster.post_embeds] *)
Definition no_post_embeds : pystr :=
  str_of_exn (AttributeError "DiscordPoster" "post_embeds").

End App.

(** ** Sample inputs used by the examples below *)

Module Samples.

Definition config_default : Config.dict :=
  Config.mk None None None (Some 150%Z) (Some 250%Z) (Some 2%Z) (Some 5%Z) None
    None None None None None None None None.

Definition config_min_20 : Config.dict :=
  Config.mk None None None (Some 20%Z) (Some 250%Z) (Some 2%Z) (Some 5%Z) None
    None None None None None None None None.

Definition config_cap_2 : Config.dict :=
  Config.mk None None None None None None (Some 2%Z) None
    None None None None None None None None.

Definition config_openai_no_key : Config.dict :=
  Config.mk None None None (Some 150%Z) (Some 250%Z) (Some 2%Z) (Some 5%Z) None
    (Some (lit "openai")) None None None None None None None.

Definition sdk_installed : Summarize.Sdk :=
  Summarize.Build_Sdk true true (fun _ => Ok tt) (fun _ => Ok tt).

Definition env_upper : Config.environ :=
  fun key => if String.eqb key "KEYWORDS_INCLUDE" then Some (lit "LLM, AI ,") else None.

(** 350 characters: 100 letters, 150 blanks, 100 letters *)
Definition title_350_with_gap : pystr :=
  repeat 65%N 100 ++ repeat 32%N 150 ++ repeat 66%N 100.

Definition title_350 : pystr := repeat 65%N 350.

Definition short_news_item : PaperMetadata.t :=
  PaperMetadata.mk (lit "Mars rover") [lit "NASA"] [] (lit "https://www.nasa.gov/rover")
    (lit "nasa") None None None None None.

Definition short_tech_item : PaperMetadata.t :=
  PaperMetadata.mk (lit "Chip makers report") [lit "Newsroom"] (lit "Brief.")
    (lit "https://example.org/chips") (lit "tech_news") None None None None None.

(** the record of the repository's test of the hashed identifier *)
Definition hashed_item : PaperMetadata.t :=
  PaperMetadata.mk (lit "Test Paper") [lit "Author 1"] (lit "Test abstract")
    (lit "https://example.com") (lit "test") None None
    (Some (Datetime.mk 2024 1 1 0 0 0 0)) None None.

Definition long_enough : pystr :=
  lit "This abstract has enough characters to pass the length check.".

Definition sample (source title : string) : PaperCreate.t :=
  PaperCreate.mk (lit source) None None (lit title) [lit "Ann Author"] (Some long_enough)
    (lit "https://example.org/item") None None None.

Definition pool : list PaperCreate.t :=
  [ sample "tech_news" "Chip news of the week"; sample "arxiv" "Paper one on parsing";
    sample "nasa" "Mars rover report"; sample "arxiv" "Paper two on typing" ].


Definition noon : Datetime.datetime := Datetime.mk 2025 6 1 12 0 0 0.
Definition that_morning : Datetime.datetime := Datetime.mk 2025 6 1 3 30 0 0.
Definition mid_2020 : Datetime.datetime := Datetime.mk 2020 1 1 0 0 0 0.



End Samples.

(* ================================================================== *)
(** * Part II: lemmas and theorems *)
(* ================================================================== *)

Unset Implicit Arguments.

Section PyStrFacts.

Lemma eqb_refl (s : pystr) : PyStr.eqb s s = true.
Proof. induction s as [|c s IH]; simpl; [reflexivity|]. now rewrite N.eqb_refl. Qed.

Lemma eqb_eq (s t : pystr) : PyStr.eqb s t = true <-> s = t.
Proof.
  split.
  - revert t; induction s as [|a s IH]; intros [|b t] H; simpl in H; try discriminate.
    + reflexivity.
    + apply andb_true_iff in H as [H1 H2]. apply N.eqb_eq in H1. f_equal; auto.
  - intros ->. apply eqb_refl.
Qed.

Lemma startswith_app (p r : pystr) : startswith (p ++ r) p = true.
Proof. induction p as [|a p IH]; simpl; [reflexivity|]. now rewrite N.eqb_refl. Qed.


Lemma contains_here (s p : pystr) : startswith s p = true -> contains s p = true.
Proof. intros H. destruct s; simpl in *; rewrite H; reflexivity. Qed.

Lemma contains_cons (c : pychar) (s p : pystr) :
  contains s p = true -> contains (c :: s) p = true.
Proof. intros H. simpl. rewrite H. apply orb_true_r. Qed.



Lemma startswith_lower (s p : pystr) :
  startswith s p = true -> startswith (lower s) (lower p) = true.
Proof.
  revert s; induction p as [|a p IH]; intros s H; [reflexivity|].
  destruct s as [|b s]; [discriminate|]. simpl in *.
  apply andb_true_iff in H as [H1 H2]. apply N.eqb_eq in H1. subst.
  rewrite N.eqb_refl. simpl. now apply IH.
Qed.

Lemma contains_lower (s p : pystr) :
  contains s p = true -> contains (lower s) (lower p) = true.
Proof.
  induction s as [|c s IH]; intros H.
  - simpl in H. rewrite orb_false_r in H. destruct p; [reflexivity|discriminate].
  - cbn [contains] in H. apply orb_true_iff in H as [H|H].
    + apply contains_here. now apply startswith_lower.
    + unfold lower. rewrite map_cons. apply contains_cons. now apply IH.
Qed.


Lemma lstrip_length (s : pystr) : length (lstrip s) <= length s.
Proof.
  induction s as [|c s IH]; simpl; [lia|]. destruct (isspace c); simpl; lia.
Qed.

Lemma rstrip_length (s : pystr) : length (rstrip s) <= length s.
Proof.
  unfold rstrip. rewrite length_rev. etransitivity; [apply lstrip_length|].
  now rewrite length_rev.
Qed.

Lemma strip_length (s : pystr) : length (strip s) <= length s.
Proof.
  unfold strip. etransitivity; [apply rstrip_length|apply lstrip_length].
Qed.


Lemma lstrip_head (c : pychar) (s : pystr) :
  isspace c = false -> lstrip (c :: s) = c :: s.
Proof. intros H. simpl. now rewrite H. Qed.

(** every string is some whitespace followed by its [lstrip] *)
Lemma lstrip_decompose (s : pystr) :
  exists ws, forallb isspace ws = true /\ s = ws ++ lstrip s.
Proof.
  induction s as [|c s (ws & Hws & IH)].
  - exists []. split; reflexivity.
  - simpl. destruct (isspace c) eqn:E.
    + exists (c :: ws). simpl. rewrite E, Hws. split; [reflexivity|]. now f_equal.
    + exists []. split; reflexivity.
Qed.

Lemma rstrip_decompose (s : pystr) :
  exists ws, forallb isspace ws = true /\ s = rstrip s ++ ws.
Proof.
  destruct (lstrip_decompose (rev s)) as (ws & Hws & E).
  exists (rev ws). split.
  - rewrite forallb_forall in *. intros x Hx. apply Hws. now apply in_rev.
  - unfold rstrip. rewrite <- rev_app_distr, <- E. now rewrite rev_involutive.
Qed.

Lemma split_spaces (ws : pystr) : forallb isspace ws = true -> split ws = [].
Proof.
  induction ws as [|c ws IH]; simpl; [reflexivity|].
  intros H. apply andb_true_iff in H as [H1 H2]. rewrite H1. auto.
Qed.

Lemma split_app_spaces (s ws : pystr) :
  forallb isspace ws = true -> split (s ++ ws) = split s.
Proof.
  intros Hws. induction s as [|c s IH].
  - now apply split_spaces.
  - rewrite <- app_comm_cons. cbn [split]. destruct (isspace c); [exact IH|].
    destruct s as [|d s].
    + simpl app. destruct ws as [|d ws]; [reflexivity|].
      simpl in Hws. apply andb_true_iff in Hws as [H1 H2]. rewrite H1.
      f_equal. simpl. rewrite H1. now apply split_spaces.
    + rewrite <- app_comm_cons in *. destruct (isspace d); now rewrite IH.
Qed.

Lemma split_spaces_app (ws s : pystr) :
  forallb isspace ws = true -> split (ws ++ s) = split s.
Proof.
  induction ws as [|c ws IH]; [reflexivity|]. simpl.
  intros H. apply andb_true_iff in H as [H1 H2]. rewrite H1. auto.
Qed.

Lemma split_strip (s : pystr) : split (strip s) = split s.
Proof.
  destruct (lstrip_decompose s) as (ws1 & H1 & E1).
  destruct (rstrip_decompose (lstrip s)) as (ws2 & H2 & E2).
  unfold strip. rewrite E1 at 2. rewrite split_spaces_app by assumption.
  rewrite E2 at 2. now rewrite split_app_spaces.
Qed.

Lemma collapse_eq (s : pystr) : collapse s = join [32%N] (split s).
Proof. unfold collapse. now rewrite split_strip. Qed.

Lemma join_cons_cons (sep : pystr) (c : pychar) (w : pystr) (ws : list pystr) :
  join sep ((c :: w) :: ws) = c :: join sep (w :: ws).
Proof. simpl. destruct ws; reflexivity. Qed.

Lemma join_length_cons (sep w : pystr) (ws : list pystr) :
  length (join sep (w :: ws)) <= length w + length sep + length (join sep ws).
Proof.
  cbn [join]. destruct ws; [simpl; lia|]. rewrite !length_app. lia.
Qed.

Lemma join_split_length (s : pystr) :
  length (join [32%N] (split s)) <= length (lstrip s).
Proof.
  induction s as [|c s IH]; [simpl; lia|].
  cbn [split lstrip]. destruct (isspace c) eqn:Ec; [exact IH|].
  destruct s as [|d s]; [simpl; lia|].
  destruct (isspace d) eqn:Ed.
  - etransitivity; [apply join_length_cons|].
    assert (H := lstrip_length s). cbn [lstrip] in IH. rewrite Ed in IH.
    simpl length in *. lia.
  - destruct (split (d :: s)) as [|w ws] eqn:E; [simpl; lia|].
    rewrite join_cons_cons. assert (H := lstrip_length (d :: s)).
    simpl length in *. lia.
Qed.

Lemma collapse_length (s : pystr) : length (collapse s) <= length s.
Proof.
  rewrite collapse_eq. etransitivity; [apply join_split_length|apply lstrip_length].
Qed.

Lemma split_words (s : pystr) : Forall word (split s).
Proof.
  induction s as [|c s IH]; [constructor|].
  cbn [split]. destruct (isspace c) eqn:Ec; [exact IH|].
  assert (Hc : word [c]) by (split; [discriminate|simpl; now rewrite Ec]).
  destruct s as [|d s]; [repeat constructor; apply Hc|].
  destruct (isspace d) eqn:Ed; [constructor; assumption|].
  destruct (split (d :: s)) as [|w ws]; [repeat constructor; apply Hc|].
  inversion IH as [|? ? [Hw1 Hw2] Hws]; subst. constructor; [|assumption].
  split; [discriminate|]. simpl. now rewrite Ec, Hw2.
Qed.

Lemma split_nows (s : pystr) : s <> [] -> nows s = true -> split s = [s].
Proof.
  induction s as [|c s IH]; [congruence|]. intros _ H. simpl in H.
  apply andb_true_iff in H as [H1 H2]. apply negb_true_iff in H1.
  cbn [split]. rewrite H1. destruct s as [|d s]; [reflexivity|].
  assert (Hd : isspace d = false).
  { simpl in H2. apply andb_true_iff in H2 as [H2 _]. now apply negb_true_iff in H2. }
  rewrite Hd. rewrite IH by (assumption || discriminate). reflexivity.
Qed.

Lemma nows_app (s t : pystr) : nows (s ++ t) = nows s && nows t.
Proof. apply forallb_app. Qed.

Lemma split_word_sep (w : pystr) (c : pychar) (t : pystr) :
  w <> [] -> nows w = true -> isspace c = true -> split (w ++ c :: t) = w :: split t.
Proof.
  induction w as [|a w IH]; [congruence|]. intros _ H Hc. simpl in H.
  apply andb_true_iff in H as [H1 H2]. apply negb_true_iff in H1.
  rewrite <- app_comm_cons. cbn [split]. rewrite H1.
  destruct w as [|d w].
  - simpl app. cbv beta iota. rewrite Hc. cbn [split]. now rewrite Hc.
  - rewrite <- app_comm_cons.
    assert (Hd : isspace d = false).
    { simpl in H2. apply andb_true_iff in H2 as [H2 _]. now apply negb_true_iff in H2. }
    rewrite Hd. rewrite app_comm_cons, IH by (assumption || discriminate).
    reflexivity.
Qed.

Lemma collapse_nows (s : pystr) : nows s = true -> collapse s = s.
Proof.
  intros H. rewrite collapse_eq. destruct s as [|c s]; [reflexivity|].
  rewrite split_nows by (assumption || discriminate). reflexivity.
Qed.

Lemma lstrip_head_ok (s : pystr) : head_ok s -> lstrip s = s.
Proof. destruct s as [|c s]; [reflexivity|]. intros H. now apply lstrip_head. Qed.

Lemma strip_trimmed (s : pystr) : trimmed s -> strip s = s.
Proof.
  intros [H1 H2]. unfold strip, rstrip. rewrite (lstrip_head_ok _ H1).
  rewrite (lstrip_head_ok _ H2). apply rev_involutive.
Qed.

Lemma nows_head_ok (s : pystr) : nows s = true -> head_ok s.
Proof.
  destruct s as [|c s]; [intros; exact I|]. simpl. intros H.
  apply andb_true_iff in H as [H _]. now apply negb_true_iff.
Qed.

Lemma nows_rev (s : pystr) : nows s = true -> nows (rev s) = true.
Proof.
  unfold nows. rewrite !forallb_forall. intros H x Hx. apply H. now apply in_rev.
Qed.

Lemma word_trimmed (w : pystr) : word w -> trimmed w.
Proof.
  intros [_ H]. split; apply nows_head_ok; [assumption|now apply nows_rev].
Qed.

Lemma head_ok_app (s t : pystr) : s <> [] -> head_ok s -> head_ok (s ++ t).
Proof. destruct s; [congruence|]. intros _ H. exact H. Qed.

Lemma join_word_nonempty (w : pystr) (ws : list pystr) :
  w <> [] -> join [32%N] (w :: ws) <> [].
Proof.
  intros H. cbn [join]. destruct ws; [assumption|].
  destruct w; [congruence|discriminate].
Qed.

Lemma join_words_trimmed (ws : list pystr) : Forall word ws -> trimmed (join [32%N] ws).
Proof.
  induction 1 as [|w ws Hw Hws IH]; [split; exact I|].
  cbn [join]. destruct ws as [|w' ws']; [now apply word_trimmed|].
  destruct (word_trimmed w Hw) as [T1 T2]. destruct Hw as [Hne _]. split.
  - apply head_ok_app; assumption.
  - rewrite rev_app_distr, rev_app_distr. rewrite <- app_assoc.
    apply head_ok_app; [|apply IH].
    intros E. apply (f_equal (@rev _)) in E. rewrite rev_involutive in E.
    revert E. apply join_word_nonempty. inversion Hws as [|? ? [Hn _] _]. assumption.
Qed.

Lemma collapse_trimmed (s : pystr) : strip (collapse s) = collapse s.
Proof.
  apply strip_trimmed. rewrite collapse_eq. apply join_words_trimmed, split_words.
Qed.

Lemma strip_nows (s : pystr) : nows s = true -> strip s = s.
Proof.
  intros H. destruct s as [|c s]; [reflexivity|]. apply strip_trimmed, word_trimmed.
  split; [discriminate|assumption].
Qed.

End PyStrFacts.

Section NormalizeFacts.

Import Normalize.

Lemma endswith_app (s p : pystr) : endswith (s ++ p) p = true.
Proof. unfold endswith. rewrite rev_app_distr. apply startswith_app. Qed.

Lemma truncate_long (n : nat) (s : pystr) :
  3 <= n -> n < length s ->
  length (truncate n s) = n /\ endswith (truncate n s) (lit "...") = true.
Proof.
  intros Hn Hs. unfold truncate. apply Nat.ltb_lt in Hs as Hb. rewrite Hb. split.
  - rewrite length_app, firstn_length_le by lia. change (length (lit "...")) with 3. lia.
  - apply endswith_app.
Qed.

Lemma truncate_short (n : nat) (s : pystr) : length s <= n -> truncate n s = s.
Proof.
  intros H. unfold truncate. apply Nat.ltb_ge in H. now rewrite H.
Qed.

Lemma truncate_length (n : nat) (s : pystr) : 3 <= n -> length (truncate n s) <= length s.
Proof.
  intros Hn. destruct (Nat.lt_ge_cases n (length s)) as [H|H].
  - destruct (truncate_long n s Hn H) as [E _]. lia.
  - rewrite truncate_short by assumption. lia.
Qed.

Lemma strip_prefixes_length (prefixes : list pystr) (s : pystr) :
  length (strip_prefixes prefixes s) <= length s.
Proof.
  unfold strip_prefixes. revert s.
  induction prefixes as [|p ps IH]; intros s; simpl; [lia|].
  etransitivity; [apply IH|]. destruct (startswith s p); [|lia].
  etransitivity; [apply strip_length|]. rewrite length_skipn. lia.
Qed.

Lemma strip_prefixes_none (prefixes : list pystr) (s : pystr) :
  existsb (startswith s) prefixes = false -> strip_prefixes prefixes s = s.
Proof.
  unfold strip_prefixes. induction prefixes as [|p ps IH]; simpl; [reflexivity|].
  intros H. apply orb_false_iff in H as [H1 H2]. rewrite H1. auto.
Qed.

Lemma clean_title_length (title : pystr) : length (_clean_title title) <= length title.
Proof.
  unfold _clean_title. destruct (nonempty title); [|simpl; lia].
  etransitivity; [apply truncate_length; lia|].
  etransitivity; [apply strip_prefixes_length|apply collapse_length].
Qed.

Lemma clean_abstract_length (abstract : pystr) :
  length (_clean_abstract abstract) <= length abstract.
Proof.
  unfold _clean_abstract. destruct (nonempty abstract); [|simpl; lia].
  etransitivity; [apply truncate_length; lia|].
  etransitivity; [apply strip_prefixes_length|apply collapse_length].
Qed.

Lemma nonempty_length {A} (l : list A) : nonempty l = true <-> 0 < length l.
Proof. destruct l; simpl; split; intros; (lia || congruence || reflexivity). Qed.

Lemma clean_title_long (title : pystr) :
  300 < length (strip_prefixes title_prefixes (collapse title)) ->
  length (_clean_title title) = 300 /\ endswith (_clean_title title) (lit "...") = true.
Proof.
  intros H. unfold _clean_title. destruct title as [|c title].
  - exfalso. cbv in H. lia.
  - cbn [nonempty]. apply truncate_long; [lia|assumption].
Qed.

Lemma clean_abstract_long (abstract : pystr) :
  2000 < length (strip_prefixes abstract_prefixes (collapse abstract)) ->
  length (_clean_abstract abstract) = 2000 /\
  endswith (_clean_abstract abstract) (lit "...") = true.
Proof.
  intros H. unfold _clean_abstract. destruct abstract as [|c abstract].
  - exfalso. cbv in H. lia.
  - cbn [nonempty]. apply truncate_long; [lia|assumption].
Qed.

(** a text with nothing to collapse and no prefix to strip is only truncated *)
Lemma tidy_plain (prefixes : list pystr) (s : pystr) :
  nows s = true -> existsb (startswith s) prefixes = false ->
  strip_prefixes prefixes (collapse s) = s.
Proof.
  intros H1 H2. rewrite collapse_nows by assumption. now apply strip_prefixes_none.
Qed.

Lemma collapse_prefix_word (w t : pystr) :
  w <> [] -> nows w = true ->
  collapse (w ++ 32%N :: t) = if nonempty (collapse t) then w ++ 32%N :: collapse t else w.
Proof.
  intros Hw Hn. rewrite !collapse_eq. rewrite split_word_sep by (assumption || reflexivity).
  cbn [join]. destruct (split t) as [|w' ws] eqn:E; [reflexivity|].
  assert (Hne : join [32%N] (w' :: ws) <> []).
  { apply join_word_nonempty. pose proof (split_words t) as F. rewrite E in F.
    inversion F as [|? ? [Hn' _] _]. assumption. }
  destruct (join [32%N] (w' :: ws)); [congruence|reflexivity].
Qed.

Lemma skipn_app_exact {A} (l m : list A) : skipn (length l) (l ++ m) = m.
Proof. induction l; simpl; auto. Qed.

Lemma strip_space_collapse (t : pystr) : strip (32%N :: collapse t) = collapse t.
Proof.
  unfold strip. change (lstrip (32%N :: collapse t)) with (lstrip (collapse t)).
  apply collapse_trimmed.
Qed.

Lemma strip_prefixes_cons (p : pystr) (ps : list pystr) (s : pystr) :
  strip_prefixes (p :: ps) s
  = strip_prefixes ps (if startswith s p then strip (skipn (length p) s) else s).
Proof. reflexivity. Qed.

Lemma clean_title_Title_prefix (t : pystr) :
  _clean_title (lit "Title: " ++ t)
  = truncate 300 (strip_prefixes [lit "TITLE:"; lit "Paper:"] (collapse t)).
Proof.
  unfold _clean_title. change (lit "Title: " ++ t) with (lit "Title:" ++ 32%N :: t).
  change (nonempty (lit "Title:" ++ 32%N :: t)) with true. cbv beta iota.
  rewrite collapse_prefix_word by (discriminate || reflexivity).
  unfold title_prefixes. rewrite strip_prefixes_cons. do 2 f_equal.
  destruct (nonempty (collapse t)) eqn:E.
  - rewrite startswith_app. rewrite skipn_app_exact. apply strip_space_collapse.
  - destruct (collapse t); [reflexivity|discriminate].
Qed.

Lemma strip_nil_of_nil : strip [] = [].
Proof. reflexivity. Qed.

Lemma normalize_authors_nonempty (authors : list pystr) :
  has_usable_author authors -> nonempty (_normalize_authors authors) = true.
Proof.
  intros (a & Hin & Ha). unfold _normalize_authors.
  match goal with |- nonempty (firstn 20 (flat_map ?f authors)) = true => set (g := f) end.
  assert (Hg : exists x, In x (flat_map g authors)).
  { assert (Hga : exists x, g a = [x]).
    { unfold g. destruct a as [|c a]; [now rewrite strip_nil_of_nil in Ha|].
      cbn [nonempty]. destruct (strip (c :: a)); [congruence|]. cbn [nonempty]. eauto. }
    destruct Hga as (x & Hx). exists x. apply in_flat_map. exists a. split; [assumption|].
    rewrite Hx. now left. }
  destruct Hg as (x & Hx). destruct (flat_map g authors); [destruct Hx|reflexivity].
Qed.

Lemma synthesized_length (title : pystr) :
  10 <= length title ->
  20 <= length (synthesized_abstract title min_len_news)
  /\ length (synthesized_abstract title min_len_news) <= Nat.max 25 (6 + length title).
Proof.
  intros H. unfold synthesized_abstract, min_len_news.
  destruct title as [|c title]; [simpl in H; lia|]. cbn [nonempty].
  rewrite length_app. change (length (lit "News: ")) with 6.
  destruct (20 <=? 6 + length (c :: title)) eqn:E.
  - apply Nat.leb_le in E. rewrite length_app. change (length (lit "News: ")) with 6. lia.
  - apply Nat.leb_gt in E. rewrite length_firstn, !length_app.
    change (length (lit " - ")) with 3. lia.
Qed.

Lemma news_short_abstract_kept (set_iter : list pystr -> list pystr)
    (paper : PaperMetadata.t) :
  is_news_source (PaperMetadata.source paper) = true ->
  length (PaperMetadata.abstract paper) < 20 ->
  10 <= length (_clean_title (PaperMetadata.title paper)) ->
  has_usable_author (PaperMetadata.authors paper) ->
  exists p,
    _normalize_single_paper set_iter paper = Some p
    /\ PaperCreate.source p = PaperMetadata.source paper
    /\ PaperCreate.title p = _clean_title (PaperMetadata.title paper)
    /\ PaperCreate.authors p = _normalize_authors (PaperMetadata.authors paper)
    /\ PaperCreate.abstract p
       = Some (synthesized_abstract (_clean_title (PaperMetadata.title paper)) min_len_news).
Proof.
  intros Hnews Habs Htitle Hauth. unfold _normalize_single_paper. cbv zeta.
  assert (T1 : nonempty (_clean_title (PaperMetadata.title paper)) = true)
    by (apply nonempty_length; lia).
  assert (T2 : (length (_clean_title (PaperMetadata.title paper)) <? 10) = false)
    by (apply Nat.ltb_ge; lia).
  rewrite T1, T2, Hnews. cbn [negb orb].
  assert (A1 : (length (_clean_abstract (PaperMetadata.abstract paper)) <? min_len_news)
               = true).
  { apply Nat.ltb_lt. pose proof (clean_abstract_length (PaperMetadata.abstract paper)).
    unfold min_len_news. lia. }
  rewrite A1, orb_true_r.
  rewrite (normalize_authors_nonempty _ Hauth). cbn [negb].
  eexists. split; [reflexivity|]. cbn. repeat split; reflexivity.
Qed.

Lemma standard_short_abstract_dropped (set_iter : list pystr -> list pystr)
    (paper : PaperMetadata.t) :
  is_news_source (PaperMetadata.source paper) = false ->
  length (PaperMetadata.abstract paper) < 50 ->
  _normalize_single_paper set_iter paper = None.
Proof.
  intros Hnews Habs. unfold _normalize_single_paper. cbv zeta.
  destruct (negb (nonempty (_clean_title (PaperMetadata.title paper)))
            || (length (_clean_title (PaperMetadata.title paper)) <? 10)); [reflexivity|].
  rewrite Hnews.
  assert (A1 : (length (_clean_abstract (PaperMetadata.abstract paper)) <? min_len_standard)
               = true).
  { apply Nat.ltb_lt. pose proof (clean_abstract_length (PaperMetadata.abstract paper)).
    unfold min_len_standard. lia. }
  rewrite A1, orb_true_r. reflexivity.
Qed.

End NormalizeFacts.

Section ReFacts.

Import Re.



End ReFacts.

Section FilterFacts.

Import FilterRank FilterRank.ContentFilter.






End FilterFacts.

Section FloatFacts.

Local Open Scope float_scope.

Lemma ltb_leb (x y : float) : (x <? y) = true -> (x <=? y) = true.
Proof.
  rewrite ltb_spec, leb_spec. unfold SFltb, SFleb.
  destruct (SFcompare (Prim2SF x) (Prim2SF y)) as [[]|]; congruence.
Qed.

(** the clamp [max(0.0, min(1.0, s))] lands in the unit interval *)
Lemma clamp_unit (s : float) :
  let r := PyFloat.max 0.0 (PyFloat.min 1.0 s) in
  (0.0 <=? r) = true /\ (r <=? 1.0) = true.
Proof.
  unfold PyFloat.max, PyFloat.min. destruct (s <? 1.0) eqn:E1.
  - destruct (0.0 <? s) eqn:E2.
    + split; now apply ltb_leb.
    + split; reflexivity.
  - change (0.0 <? 1.0) with true. cbv iota. split; reflexivity.
Qed.

End FloatFacts.

Section DatetimeFacts.

Import Datetime.
Local Open Scope Z_scope.

Lemma ordinal_2020_bound (d : datetime) :
  valid d -> year d = 2020 -> toordinal d <= 737790.
Proof.
  intros (_ & Hm & Hd & _) Hy. unfold toordinal. rewrite Hy in *.
  change (days_before_year 2020) with 737424.
  assert (M : month d = 1 \/ month d = 2 \/ month d = 3 \/ month d = 4 \/ month d = 5
              \/ month d = 6 \/ month d = 7 \/ month d = 8 \/ month d = 9
              \/ month d = 10 \/ month d = 11 \/ month d = 12) by lia.
  destruct M as [M|[M|[M|[M|[M|[M|[M|[M|[M|[M|[M|M]]]]]]]]]]];
    rewrite M in *;
    match type of Hd with
    | context [days_in_month ?y ?m] =>
        let v := eval vm_compute in (days_in_month y m) in
        change (days_in_month y m) with v in Hd
    end;
    match goal with
    | |- context [days_before_month ?y ?m] =>
        let v := eval vm_compute in (days_before_month y m) in
        change (days_before_month y m) with v
    end;
    lia.
Qed.

Lemma total_us_2020_bound (d : datetime) :
  valid d -> year d = 2020 -> total_us d < total_us new_year_2021.
Proof.
  intros V Hy. pose proof (ordinal_2020_bound d V Hy) as Ho.
  destruct V as (_ & _ & _ & Hh & Hmi & Hs & Hus).
  let v := eval vm_compute in (total_us new_year_2021) in
  change (total_us new_year_2021) with v.
  unfold total_us. lia.
Qed.

End DatetimeFacts.

Section RankerFacts.

Import Datetime FilterRank FilterRank.PaperRanker.
Local Open Scope Z_scope.

Lemma recency_recent (now d : datetime) :
  within_last_day now d -> _recency_score now (Some d) = 1.0%float.
Proof.
  intros [H1 H2]. unfold _recency_score, days_between.
  assert (E : ((total_us now - total_us d) / US_PER_DAY <=? 1) = true).
  { apply Z.leb_le. apply Z.div_le_upper_bound; unfold US_PER_DAY in *; lia. }
  now rewrite E.
Qed.

Lemma recency_old (now d : datetime) :
  2 * US_PER_DAY <= total_us now - total_us d ->
  (_recency_score now (Some d) <? 1.0)%float = true.
Proof.
  intros H. unfold _recency_score, days_between.
  assert (E : ((total_us now - total_us d) / US_PER_DAY <=? 1) = false).
  { apply Z.leb_gt. apply Z.lt_le_trans with 2; [lia|].
    apply Z.div_le_lower_bound; unfold US_PER_DAY in *; lia. }
  rewrite E.
  repeat match goal with |- context [if ?b then _ else _] => destruct b end; reflexivity.
Qed.

Lemma source_unrecognized (source : pystr) :
  recognized source = false -> _source_score source = 0.5%float.
Proof.
  unfold recognized, _source_score. intros H.
  destruct (find _ source_weights) as [kv|] eqn:E; [|reflexivity].
  apply find_some in E as [E1 E2].
  assert (X : existsb (fun kv => PyStr.eqb (fst kv) (lower source)) source_weights = true)
    by (apply existsb_exists; eauto).
  congruence.
Qed.

(** C7: with the clock past 2 January 2021, a paper published within the
    last day has a strictly higher recency sub-score than one dated in 2020;
    source "arxiv" has a strictly higher source sub-score than any source
    that is not a key of the weight table; and the composite relevance score
    of every paper lies in [0, 1]. *)
Theorem C7_ranker_scores :
  (forall now recent old,
      valid old -> year old = 2020 ->
      within_last_day now recent ->
      total_us jan3_2021 <= total_us now ->
      (_recency_score now (Some old) <? _recency_score now (Some recent))%float = true)
  /\ (forall source,
         recognized source = false ->
         (_source_score source <? _source_score (lit "arxiv"))%float = true)
  /\ (forall self now paper,
         (0.0 <=? _calculate_relevance_score self now paper)%float = true
         /\ (_calculate_relevance_score self now paper <=? 1.0)%float = true).
Proof.
  repeat split.
  - intros now recent old V Hy Hr Hnow. rewrite (recency_recent now recent Hr).
    apply recency_old. pose proof (total_us_2020_bound old V Hy) as B.
    revert Hnow B.
    let v := eval vm_compute in (total_us new_year_2021) in
    change (total_us new_year_2021) with v.
    let v := eval vm_compute in (total_us jan3_2021) in
    change (total_us jan3_2021) with v.
    unfold US_PER_DAY. lia.
  - intros source H. rewrite (source_unrecognized _ H). reflexivity.
  - apply clamp_unit.
  - apply clamp_unit.
Qed.

Lemma C7_witness :
  (_recency_score Samples.noon (Some Samples.mid_2020)
   <? _recency_score Samples.noon (Some Samples.that_morning))%float = true.
Proof.
  apply (proj1 C7_ranker_scores Samples.noon Samples.that_morning Samples.mid_2020).
  - unfold valid. cbn. lia.
  - reflexivity.
  - unfold within_last_day. vm_compute. split; discriminate.
  - vm_compute. discriminate.
Defined.

End RankerFacts.

Section SummarizeFacts.

Import Re Summarize Summarize.BaseSummarizer Summarize.RuleBasedSummarizer.

Lemma split_head (c : pychar) (s : pystr) :
  isspace c = false -> exists w ws, split (c :: s) = (c :: w) :: ws.
Proof.
  intros H. cbn [split]. rewrite H. destruct s as [|d s]; [eauto|].
  destruct (isspace d); [eauto|]. destruct (split (d :: s)); eauto.
Qed.

Lemma collapse_head (c : pychar) (s : pystr) :
  isspace c = false -> starts_with_char c (collapse (c :: s)).
Proof.
  intros H. rewrite collapse_eq. destruct (split_head c s H) as (w & ws & ->).
  rewrite join_cons_cons. now eexists.
Qed.

Lemma lstrip_snoc (s : pystr) (c : pychar) :
  isspace c = false -> exists t, lstrip (s ++ [c]) = t ++ [c].
Proof.
  intros H. induction s as [|a s (t & IH)].
  - exists []. simpl. now rewrite H.
  - simpl. destruct (isspace a); [eauto|]. now exists (a :: s).
Qed.

Lemma strip_head (c : pychar) (s : pystr) :
  isspace c = false -> starts_with_char c (strip (c :: s)).
Proof.
  intros H. unfold strip. rewrite lstrip_head by assumption.
  unfold rstrip. cbn [rev]. destruct (lstrip_snoc (rev s) c H) as (t & ->).
  rewrite rev_app_distr. now eexists.
Qed.

Lemma sub1_head (r : re) (c : pychar) (s : pystr) :
  match_here false r (c :: s) = None -> starts_with_char c (sub1 r (c :: s)).
Proof. intros H. unfold sub1. cbn [sub1_from]. rewrite H. now eexists. Qed.

Lemma replace_head (c : pychar) (s old : pystr) :
  match old with [] => false | h :: _ => negb (h =? c)%N end = true ->
  starts_with_char c (replace (c :: s) old []).
Proof.
  destruct old as [|h old]; [discriminate|]. intros H. apply negb_true_iff in H.
  unfold replace. cbn [replace_from startswith]. rewrite H. cbn [andb]. now eexists.
Qed.

Lemma remove_phrases_head (c : pychar) (phrases : list pystr) (s : pystr) :
  isspace c = false ->
  forallb (fun phrase => match phrase with
                         | [] => false
                         | h :: _ => negb (h =? c)%N
                         end) phrases = true ->
  starts_with_char c
    (fold_left (fun text phrase => strip (replace text phrase [])) phrases (c :: s)).
Proof.
  intros Hc. revert s. induction phrases as [|p ps IH]; intros s H.
  - now eexists.
  - cbn [forallb] in H. apply andb_true_iff in H as [H1 H2]. cbn [fold_left].
    destruct (replace_head c s p H1) as (r1 & ->).
    destruct (strip_head c r1 Hc) as (r2 & ->). now apply IH.
Qed.

Lemma clean_text_head (c : pychar) (s : pystr) :
  safe_head c = true -> starts_with_char c (_clean_text (c :: s)).
Proof.
  unfold safe_head. intros H.
  apply andb_true_iff in H as [H H4]. apply andb_true_iff in H as [H H3].
  apply andb_true_iff in H as [H1 H2].
  apply negb_true_iff in H1, H2, H3.
  unfold _clean_text. cbn [nonempty].
  destruct (collapse_head c s H1) as (r1 & ->).
  destruct (sub1_head bold c r1) as (r2 & ->).
  { unfold match_here, bold. cbn. unfold chr_matches. now rewrite H2. }
  destruct (sub1_head italic c r2) as (r3 & ->).
  { unfold match_here, italic. cbn. unfold chr_matches. now rewrite H2. }
  destruct (sub1_head code c r3) as (r4 & ->).
  { unfold match_here, code. cbn. unfold chr_matches. now rewrite H3. }
  now apply remove_phrases_head.
Qed.

Lemma word_count_head (c : pychar) (s : pystr) :
  isspace c = false -> 0 < word_count (c :: s).
Proof.
  intros H. unfold word_count. destruct (split_head c s H) as (w & ws & ->). simpl. lia.
Qed.

Lemma join_head (sep : pystr) (c : pychar) (w : pystr) (ws : list pystr) (tail : pystr) :
  starts_with_char c (join sep ((c :: w) :: ws) ++ tail).
Proof. rewrite join_cons_cons. now eexists. Qed.

Lemma template_summary_head (title : pystr) (abstract : option pystr)
    (authors : list pystr) (source summary : pystr) :
  _create_template_summary title abstract authors source = Ok summary ->
  starts_with_char Thai.NO_NU summary.
Proof.
  unfold _create_template_summary. destruct abstract as [a|]; [|discriminate].
  cbn [_extract_key_concepts rbind]. cbv zeta. intros H. injection H as <-.
  destruct (nonempty authors); eexists; reflexivity.
Qed.

Lemma template_tldr_head (title : pystr) (abstract : option pystr) (tldr : pystr) :
  _create_template_tldr title abstract = Ok tldr -> starts_with_char Thai.NGO_NGU tldr.
Proof.
  unfold _create_template_tldr. destruct abstract as [a|]; [|discriminate].
  destruct (nonempty (_extract_key_result a)); intros H; injection H as <-;
    now eexists.
Qed.

(** C9: with SUMMARIZER_MODE "openai" and no OPENAI_API_KEY, whether or not
    the SDK is installed, the factory returns a rule-based summarizer; and
    for every paper the rule-based summarizer returns a response with a
    non-empty Thai summary, a non-empty Thai TL;DR and a positive word
    count. *)
Theorem C9_rule_based_fallback_and_output :
  (forall sdk config,
      Config.SUMMARIZER_MODE config = Some (lit "openai") ->
      truthy (Config.OPENAI_API_KEY config) = false ->
      SummarizerFactory.create_summarizer sdk config
      = RuleBased (BaseSummarizer.__init__ config))
  /\ (forall self paper,
         SummaryResponse.summary_thai (RuleBasedSummarizer.summarize self paper) <> []
         /\ SummaryResponse.tldr_thai (RuleBasedSummarizer.summarize self paper) <> []
         /\ 0 < SummaryResponse.word_count (RuleBasedSummarizer.summarize self paper)).
Proof.
  split.
  - intros sdk config Hmode Hkey. unfold SummarizerFactory.create_summarizer.
    rewrite Hmode. cbn [Config.get].
    change (PyStr.eqb (lower (lit "openai")) (lit "openai")) with true. cbn [andb].
    destruct (OPENAI_AVAILABLE sdk) eqn:E; [|reflexivity].
    unfold OpenAISummarizer__init__. rewrite E, Hkey. reflexivity.
  - intros self paper. unfold RuleBasedSummarizer.summarize, summarize_body.
    destruct (_create_template_summary _ _ _ _) as [summary|e] eqn:E1.
    + cbn [rbind]. destruct (_create_template_tldr _ _) as [tldr|e] eqn:E2.
      * cbn [rbind]. unfold _validate_summary.
        destruct (template_summary_head _ _ _ _ _ E1) as (r1 & ->).
        destruct (template_tldr_head _ _ _ E2) as (r2 & ->).
        destruct (clean_text_head Thai.NO_NU r1) as (s1 & ->); [reflexivity|].
        destruct (clean_text_head Thai.NGO_NGU r2) as (s2 & ->); [reflexivity|].
        cbn [SummaryResponse.summary_thai SummaryResponse.tldr_thai
             SummaryResponse.word_count].
        repeat split; try discriminate. now apply word_count_head.
      * cbn [rbind]. unfold _create_fallback_summary.
        cbn [SummaryResponse.summary_thai SummaryResponse.tldr_thai
             SummaryResponse.word_count].
        repeat split; try discriminate. now apply word_count_head.
    + cbn [rbind]. unfold _create_fallback_summary.
      cbn [SummaryResponse.summary_thai SummaryResponse.tldr_thai
           SummaryResponse.word_count].
      repeat split; try discriminate. now apply word_count_head.
Qed.

Lemma C9_witness :
  SummarizerFactory.create_summarizer Samples.sdk_installed Samples.config_openai_no_key
  = RuleBased (BaseSummarizer.__init__ Samples.config_openai_no_key).
Proof.
  apply (proj1 C9_rule_based_fallback_and_output Samples.sdk_installed
           Samples.config_openai_no_key); reflexivity.
Defined.

End SummarizeFacts.

Section IdentifierFacts.

Import Md5 PaperMetadata.

Lemma encode_char_total (c : pychar) :
  (c <? 1114112)%N && negb (between 55296 57343 c) = true ->
  exists bs, encode_char c = Some bs.
Proof.
  intros H. apply andb_true_iff in H as [H1 H2]. apply negb_true_iff in H2.
  unfold encode_char. rewrite H1, H2.
  repeat match goal with |- context [if ?b then _ else _] => destruct b end; eauto.
Qed.

Lemma encode_total (s : pystr) : encodable s = true -> exists b, encode s = Ok b.
Proof.
  induction s as [|c s IH]; intros H; [now exists []|].
  cbn [encodable forallb] in H. apply andb_true_iff in H as [H1 H2].
  destruct (encode_char_total c H1) as (bs & E). destruct (IH H2) as (b & Eb).
  cbn [encode]. rewrite E, Eb. cbn [rbind]. eauto.
Qed.

Lemma hexchar_ok (n : N) : is_hexchar (hexchar (n mod 16)) = true.
Proof.
  assert (H : (n mod 16 < 16)%N) by (apply N.mod_lt; discriminate).
  set (m := (n mod 16)%N) in *. unfold hexchar, is_hexchar, between.
  destruct (m <? 10)%N eqn:E.
  - apply N.ltb_lt in E. apply orb_true_iff. left.
    apply andb_true_iff. split; apply N.leb_le; lia.
  - apply N.ltb_ge in E. apply orb_true_iff. right.
    apply andb_true_iff. split; apply N.leb_le; lia.
Qed.

Lemma hexdigest_shape (msg : list N) :
  length (hexdigest msg) = 32 /\ forallb is_hexchar (hexdigest msg) = true.
Proof.
  unfold hexdigest, digest. destruct (digest_state msg) as [[[a b] c] d].
  split; [reflexivity|].
  cbn [le_bytes32 app flat_map hex_of_byte forallb]. rewrite !hexchar_ok. reflexivity.
Qed.

(** C3: a record with a DOI is identified by exactly that DOI, with type
    [doi]; one with no DOI but an arXiv id by that id, with type [arxiv_id];
    one with neither has type [hash] and, its hashed text being encodable
    Unicode, gets the MD5 hex digest of title + first author + year: 32
    characters, all hexadecimal.  Two such records with the same title,
    first author and publication year get the same identifier. *)
Theorem C3_identifier_derivation :
  (forall r d,
      doi r = Some d -> d <> [] ->
      get_identifier r = Ok d /\ get_identifier_type r = lit "doi")
  /\ (forall r a,
         truthy (doi r) = false -> arxiv_id r = Some a -> a <> [] ->
         get_identifier r = Ok a /\ get_identifier_type r = lit "arxiv_id")
  /\ (forall r,
         truthy (doi r) = false -> truthy (arxiv_id r) = false ->
         get_identifier_type r = lit "hash"
         /\ (encodable (hash_content r) = true ->
             exists h, get_identifier r = Ok h
                       /\ length h = 32 /\ forallb is_hexchar h = true))
  /\ (forall r1 r2,
         truthy (doi r1) = false -> truthy (arxiv_id r1) = false ->
         truthy (doi r2) = false -> truthy (arxiv_id r2) = false ->
         title r1 = title r2 ->
         hd_error (authors r1) = hd_error (authors r2) ->
         option_map Datetime.year (published_at r1)
         = option_map Datetime.year (published_at r2) ->
         get_identifier r1 = get_identifier r2).
Proof.
  split; [|split; [|split]].
  - intros r d Hd Hne. unfold get_identifier, get_identifier_type. rewrite Hd.
    destruct d; [congruence|]. split; reflexivity.
  - intros r a Hd Ha Hne. unfold get_identifier, get_identifier_type. rewrite Hd, Ha.
    destruct a; [congruence|]. split; reflexivity.
  - intros r Hd Ha. split.
    + unfold get_identifier_type. now rewrite Hd, Ha.
    + intros E. destruct (encode_total _ E) as (b & Eb).
      exists (hexdigest b). unfold get_identifier. rewrite Hd, Ha, Eb. cbn [rbind].
      split; [reflexivity|apply hexdigest_shape].
  - intros r1 r2 D1 A1 D2 A2 Ht Ha Hy. unfold get_identifier.
    rewrite D1, A1, D2, A2. do 2 f_equal. unfold hash_content. rewrite Ht.
    destruct (authors r1) as [|a1 l1], (authors r2) as [|a2 l2];
      cbn [hd_error] in Ha; try discriminate;
      destruct (published_at r1), (published_at r2);
      cbn [option_map] in Hy; try discriminate; congruence.
Qed.

(** the hash of the repository's own test record, as [hashlib] gives it *)
Example hashed_item_identifier :
  get_identifier Samples.hashed_item = Ok (lit "2ec1a4dea81317325ffb8cbbf1202bfb").
Proof. vm_compute. reflexivity. Qed.

Lemma C3_witness :
  exists h, get_identifier Samples.hashed_item = Ok h
            /\ length h = 32 /\ forallb is_hexchar h = true.
Proof.
  apply (proj2 (proj1 (proj2 (proj2 C3_identifier_derivation))
                  Samples.hashed_item eq_refl eq_refl)).
  vm_compute. reflexivity.
Defined.

End IdentifierFacts.

Section ConfigFacts.

Import Config.

Lemma split_on_join (sep : pychar) (s : pystr) : join [sep] (split_on sep s) = s.
Proof.
  induction s as [|c s IH]; [reflexivity|]. cbn [split_on].
  destruct (c =? sep)%N eqn:E.
  - apply N.eqb_eq in E. subst c. cbn [join].
    destruct (split_on sep s) as [|w ws] eqn:Es.
    + destruct s; cbn [split_on] in Es; [discriminate|].
      destruct (p =? sep)%N; [discriminate|]. destruct (split_on sep s); discriminate.
    + now rewrite <- IH.
  - destruct (split_on sep s) as [|w ws] eqn:Es.
    + destruct s; cbn [split_on] in Es; [discriminate|].
      destruct (p =? sep)%N; [discriminate|]. destruct (split_on sep s); discriminate.
    + rewrite join_cons_cons. now rewrite IH.
Qed.

Lemma split_on_no_sep (sep : pychar) (s : pystr) :
  Forall (fun field => ~ In sep field) (split_on sep s).
Proof.
  induction s as [|c s IH]; [repeat constructor; auto|]. cbn [split_on].
  destruct (c =? sep)%N eqn:E.
  - constructor; [auto|assumption].
  - apply N.eqb_neq in E. destruct (split_on sep s) as [|w ws].
    + repeat constructor. intros [H|[]]. congruence.
    + inversion IH; subst. constructor; [|assumption].
      intros [H|H]; [congruence|auto].
Qed.

Lemma strip_idempotent (s : pystr) : strip (strip s) = strip s.
Proof.
  apply strip_trimmed. unfold strip, rstrip. split.
  - destruct (lstrip_decompose (rev (lstrip s))) as (ws & Hws & E).
    destruct (lstrip s) as [|c t] eqn:El; [exact I|].
    assert (Hc : isspace c = false).
    { destruct s as [|a s]; [discriminate|]. clear - El.
      induction (a :: s) as [|b l IH]; [discriminate|].
      cbn [lstrip] in El. destruct (isspace b) eqn:Eb; [auto|]. congruence. }
    cbn [rev] in *. destruct (lstrip_snoc (rev t) c Hc) as (u & ->).
    rewrite rev_app_distr. exact Hc.
  - rewrite rev_involutive.
    destruct (lstrip (rev (lstrip s))) as [|c t] eqn:El; [exact I|].
    cbn [head_ok]. clear - El. induction (rev (lstrip s)) as [|b l IH]; [discriminate|].
    cbn [lstrip] in El. destruct (isspace b) eqn:Eb; [auto|]. congruence.
Qed.

Lemma get_list_shape (env : environ) (key : string) :
  let value := getenv env key [] in
  exists fields,
    join (lit ",") fields = value
    /\ Forall (fun field => ~ In 44%N field) fields
    /\ _get_list env key [] = filter nonempty (map strip fields)
    /\ Forall (fun token => token <> [] /\ strip token = token) (_get_list env key []).
Proof.
  cbv zeta. unfold _get_list. change (join (lit ",") []) with (@nil pychar).
  destruct (getenv env key []) as [|c value] eqn:E.
  - exists []. cbn. repeat split; constructor.
  - cbn [nonempty]. exists (split_on 44%N (c :: value)).
    split; [apply split_on_join|]. split; [apply split_on_no_sep|].
    split; [reflexivity|].
    apply Forall_forall. intros token H. apply filter_In in H as [H1 H2].
    apply in_map_iff in H1 as (field & <- & _). split.
    + destruct (strip field); [discriminate|congruence].
    + apply strip_idempotent.
Qed.

End ConfigFacts.

Section StorageFacts.

Import Storage Storage.SeenPaperRepository.











End StorageFacts.

Section PipelineClaims.

Import Normalize FilterRank Samples.

(** C5 (amended): a title whose whitespace-collapsed, prefix-stripped form
    has more than 300 characters -- in particular a 350-character title
    that is already collapsed and carries none of the prefixes -- is
    normalized to exactly 300 characters ending in "..."; likewise an
    abstract to exactly 2000; a leading "Title: " is stripped; and of the
    items whose abstract has fewer than 20 characters, a tech_news item with
    a cleaned title of at least 10 characters and a usable author is kept
    with a synthesized abstract of at least 20 characters, while an arxiv
    item is dropped. *)
Theorem C5_normalizer_limits :
  (forall title,
      300 < length (strip_prefixes title_prefixes (collapse title)) ->
      length (_clean_title title) = 300
      /\ endswith (_clean_title title) (lit "...") = true)
  /\ (forall title,
         length title = 350 -> collapse title = title ->
         existsb (startswith title) title_prefixes = false ->
         length (_clean_title title) = 300
         /\ endswith (_clean_title title) (lit "...") = true)
  /\ (forall abstract,
         2000 < length (strip_prefixes abstract_prefixes (collapse abstract)) ->
         length (_clean_abstract abstract) = 2000
         /\ endswith (_clean_abstract abstract) (lit "...") = true)
  /\ (forall abstract,
         length abstract = 2100 -> collapse abstract = abstract ->
         existsb (startswith abstract) abstract_prefixes = false ->
         length (_clean_abstract abstract) = 2000
         /\ endswith (_clean_abstract abstract) (lit "...") = true)
  /\ (forall t,
         _clean_title (lit "Title: " ++ t)
         = truncate 300 (strip_prefixes [lit "TITLE:"; lit "Paper:"] (collapse t)))
  /\ (forall set_iter paper,
         PaperMetadata.source paper = lit "tech_news" ->
         length (PaperMetadata.abstract paper) < 20 ->
         10 <= length (_clean_title (PaperMetadata.title paper)) ->
         has_usable_author (PaperMetadata.authors paper) ->
         exists p,
           _normalize_single_paper set_iter paper = Some p
           /\ PaperCreate.abstract p
              = Some (synthesized_abstract (_clean_title (PaperMetadata.title paper))
                        min_len_news)
           /\ 20 <= length (synthesized_abstract
                              (_clean_title (PaperMetadata.title paper)) min_len_news))
  /\ (forall set_iter paper,
         PaperMetadata.source paper = lit "arxiv" ->
         length (PaperMetadata.abstract paper) < 20 ->
         _normalize_single_paper set_iter paper = None).
Proof.
  split; [exact clean_title_long|].
  split.
  { intros title Hl Hc Hp. apply clean_title_long.
    rewrite Hc, strip_prefixes_none by assumption. lia. }
  split; [exact clean_abstract_long|].
  split.
  { intros abstract Hl Hc Hp. apply clean_abstract_long.
    rewrite Hc, strip_prefixes_none by assumption. lia. }
  split; [exact clean_title_Title_prefix|].
  split.
  { intros set_iter paper Hs Ha Ht Hau.
    destruct (news_short_abstract_kept set_iter paper) as (p & E & _ & _ & _ & Eabs);
      try assumption.
    { now rewrite Hs. }
    exists p. repeat split; try assumption.
    now apply synthesized_length. }
  intros set_iter paper Hs Ha. apply standard_short_abstract_dropped.
  - now rewrite Hs.
  - lia.
Qed.

(** C5, as stated, fails: a 350-character title with a run of blanks is
    collapsed to 201 characters and not truncated. *)
Lemma C5_counterexample :
  length title_350_with_gap = 350
  /\ length (_clean_title title_350_with_gap) = 201
  /\ endswith (_clean_title title_350_with_gap) (lit "...") = false.
Proof. vm_compute. repeat split. Qed.

Lemma C5_witness :
  (length (_clean_title title_350) = 300
   /\ endswith (_clean_title title_350) (lit "...") = true)
  /\ exists p,
      _normalize_single_paper first_seen short_tech_item = Some p
      /\ PaperCreate.abstract p
         = Some (synthesized_abstract
                   (_clean_title (PaperMetadata.title short_tech_item)) min_len_news)
      /\ 20 <= length (synthesized_abstract
                         (_clean_title (PaperMetadata.title short_tech_item))
                         min_len_news).
Proof.
  split.
  - apply (proj1 (proj2 C5_normalizer_limits) title_350); vm_compute; reflexivity.
  - apply (proj1 (proj2 (proj2 (proj2 (proj2 (proj2 C5_normalizer_limits)))))
             first_seen short_tech_item).
    + reflexivity.
    + vm_compute. lia.
    + vm_compute. lia.
    + exists (lit "Newsroom"). split; [now left|]. vm_compute. discriminate.
Defined.

(** C10 (amended): with SUMMARY_MIN_LENGTH above 25, a tech_news or nasa
    item whose abstract has fewer than 20 characters, whose cleaned title
    has at least 10 and fewer than SUMMARY_MIN_LENGTH - 6 characters and
    which has a usable author is accepted by the normalizer with a
    synthesized abstract shorter than SUMMARY_MIN_LENGTH, and the quality
    check of ContentFilter then rejects it. *)
Theorem C10_short_news_items_fail_quality_check
    (set_iter : list pystr -> list pystr) (config : Config.dict)
    (summary_min_length : Z) (now : Datetime.datetime) (paper : PaperMetadata.t) :
  Config.SUMMARY_MIN_LENGTH config = Some summary_min_length ->
  (25 < summary_min_length)%Z ->
  is_news_source (PaperMetadata.source paper) = true ->
  length (PaperMetadata.abstract paper) < 20 ->
  10 <= length (_clean_title (PaperMetadata.title paper)) ->
  (Z.of_nat (length (_clean_title (PaperMetadata.title paper)))
   < summary_min_length - 6)%Z ->
  has_usable_author (PaperMetadata.authors paper) ->
  exists p a,
    _normalize_single_paper set_iter paper = Some p
    /\ PaperCreate.abstract p = Some a
    /\ a = synthesized_abstract (_clean_title (PaperMetadata.title paper)) min_len_news
    /\ (Z.of_nat (length a) < summary_min_length)%Z
    /\ ContentFilter._passes_quality_check (ContentFilter.__init__ config) p = false
    /\ ContentFilter.filter_papers (ContentFilter.__init__ config) now [p] = [].
Proof.
  intros Hcfg Hmin Hnews Habs Ht Htl Hau.
  destruct (news_short_abstract_kept set_iter paper Hnews Habs Ht Hau)
    as (p & E & _ & Etitle & _ & Eabs).
  destruct (synthesized_length _ Ht) as [_ Hlen].
  assert (Hshort : (Z.of_nat (length (synthesized_abstract
                      (_clean_title (PaperMetadata.title paper)) min_len_news))
                    < summary_min_length)%Z) by lia.
  assert (Hq : ContentFilter._passes_quality_check (ContentFilter.__init__ config) p
               = false).
  { unfold ContentFilter._passes_quality_check. cbv zeta.
    destruct (negb (nonempty (PaperCreate.title p))
              || (length (PaperCreate.title p) <? 10)); [reflexivity|].
    rewrite Eabs. cbn [Config.get ContentFilter.__init__
                       ContentFilter.min_abstract_length].
    rewrite Hcfg. cbn [Config.get]. apply Z.ltb_lt in Hshort. rewrite Hshort.
    now rewrite orb_true_r. }
  exists p, (synthesized_abstract (_clean_title (PaperMetadata.title paper)) min_len_news).
  repeat split; try assumption.
  unfold ContentFilter.filter_papers, ContentFilter._should_include_paper.
  cbn [filter]. now rewrite Hq.
Qed.

Lemma C10_witness :
  exists p a,
    _normalize_single_paper first_seen short_news_item = Some p
    /\ PaperCreate.abstract p = Some a
    /\ a = synthesized_abstract
             (_clean_title (PaperMetadata.title short_news_item)) min_len_news
    /\ (Z.of_nat (length a) < 150)%Z
    /\ ContentFilter._passes_quality_check (ContentFilter.__init__ config_default) p
       = false
    /\ ContentFilter.filter_papers (ContentFilter.__init__ config_default) noon [p]
       = [].
Proof.
  apply (C10_short_news_items_fail_quality_check first_seen config_default 150 noon
           short_news_item).
  - reflexivity.
  - lia.
  - reflexivity.
  - vm_compute. lia.
  - vm_compute. lia.
  - vm_compute. reflexivity.
  - exists (lit "NASA"). split; [now left|]. vm_compute. discriminate.
Defined.

(** C10, as stated, fails: with SUMMARY_MIN_LENGTH = 20 a nasa item with a
    10-character title and no abstract gets the 23-character abstract made
    of its doubled title, and passes the quality check. *)
Lemma C10_counterexample :
  is_news_source (PaperMetadata.source short_news_item) = true
  /\ length (PaperMetadata.abstract short_news_item) = 0
  /\ length (_clean_title (PaperMetadata.title short_news_item)) = 10
  /\ exists p,
      _normalize_single_paper first_seen short_news_item = Some p
      /\ PaperCreate.abstract p = Some (lit "Mars rover - Mars rover")
      /\ ContentFilter._passes_quality_check (ContentFilter.__init__ config_min_20) p
         = true.
Proof.
  repeat split. eexists. split; [vm_compute; reflexivity|]. split; vm_compute; reflexivity.
Qed.

End PipelineClaims.

Section MoreClaims.

Import Config Delivery App FilterRank Samples.

(** C8 (amended): [get_keywords_include] and [get_keywords_exclude] return
    the comma-separated fields of the environment setting, each trimmed,
    the blank ones dropped, in order and in their original letter case. *)
Theorem C8_keyword_lists_are_trimmed_fields (env : environ) :
  (exists fields,
      join (lit ",") fields = getenv env "KEYWORDS_INCLUDE" []
      /\ Forall (fun field => ~ In 44%N field) fields
      /\ get_keywords_include env = filter nonempty (map strip fields)
      /\ Forall (fun token => token <> [] /\ strip token = token)
           (get_keywords_include env))
  /\ (exists fields,
         join (lit ",") fields = getenv env "KEYWORDS_EXCLUDE" []
         /\ Forall (fun field => ~ In 44%N field) fields
         /\ get_keywords_exclude env = filter nonempty (map strip fields)
         /\ Forall (fun token => token <> [] /\ strip token = token)
              (get_keywords_exclude env)).
Proof.
  split.
  - exact (get_list_shape env "KEYWORDS_INCLUDE").
  - exact (get_list_shape env "KEYWORDS_EXCLUDE").
Qed.

(** C8, as stated, fails: upper-case tokens are returned as they are. *)
Lemma C8_counterexample :
  get_keywords_include env_upper = [lit "LLM"; lit "AI"]
  /\ map lower (get_keywords_include env_upper) = [lit "llm"; lit "ai"]
  /\ forallb (fun token => PyStr.eqb (lower token) token) (get_keywords_include env_upper)
     = false.
Proof. vm_compute. repeat split. Qed.

(** C1 (what the code does): when the fetch step returns no papers, the
    call [discord_poster.post_embeds] raises AttributeError, the run goes
    through the generic exception handler and reports success = false; the
    only embed that may be posted is the error embed. *)
Theorem C1_zero_papers_run_takes_the_exception_path
    (normalize_papers : list PaperMetadata.t -> list PaperCreate.t)
    (process_papers : list PaperCreate.t -> list PaperCreate.t)
    (summarize : PaperCreate.t -> result SummaryResponse.t)
    (store_papers : list PaperCreate.t -> M unit)
    (poster : DiscordPoster.t) (w : World) :
  let bot := mkBot (ret []) normalize_papers process_papers summarize store_papers poster in
  run_daily_pipeline bot w
  = (Ok (mkPipelineResult false (Some no_post_embeds) 0 0
           (if DiscordPoster.dry_run poster
            then mkResult true None true None
            else respond (DiscordPoster.poster poster) [ErrorEmbed no_post_embeds])),
     mkWorld (sent w ++ (if DiscordPoster.dry_run poster
                         then []
                         else [[ErrorEmbed no_post_embeds]]))).
Proof.
  destruct poster as [config dry_run transport method]. destruct w as [sent].
  destruct dry_run.
  - cbn. now rewrite app_nil_r.
  - reflexivity.
Qed.

(** C2 (what the code does): with a cap of 2 and the default quota of 2,
    a pool of two arxiv papers and two news items, all passing the filter,
    yields the two arxiv papers: the news items appended for the quota rank
    last in the re-sort and are cut off again. *)
Theorem C2_quota_is_undone_by_the_retrim :
  let pipeline := create_filter_rank_pipeline config_cap_2 in
  let filtered :=
    ContentFilter.filter_papers (FilterRankPipeline.filter pipeline) noon pool in
  let ranked := PaperRanker.rank_papers (FilterRankPipeline.ranker pipeline) noon filtered in
  let selection := FilterRankPipeline.process_papers pipeline noon pool in
  filtered = pool
  /\ map fst ranked
     = [ sample "arxiv" "Paper one on parsing"; sample "arxiv" "Paper two on typing";
         sample "tech_news" "Chip news of the week"; sample "nasa" "Mars rover report" ]
  /\ Config.get (Config.MIN_NEWS_QUOTA config_cap_2) 2%Z = 2%Z
  /\ length (filter FilterRankPipeline.is_news (map fst ranked)) = 2
  /\ selection = [sample "arxiv" "Paper one on parsing"; sample "arxiv" "Paper two on typing"]
  /\ length (filter FilterRankPipeline.is_news selection) = 0.
Proof. vm_compute. repeat split. Qed.

End MoreClaims.

(** ** The daily cap *)

Section CapFacts.

Import FilterRank FilterRank.FilterRankPipeline.

Lemma slice_to_length {A} (l : list A) (n : Z) :
  (0 <= n)%Z -> length (slice_to l n) <= Z.to_nat n.
Proof.
  intros H. unfold slice_to. apply Z.ltb_ge in H. rewrite H.
  rewrite length_firstn. lia.
Qed.

(** The daily cap holds of every selection: with a non-negative
    MAX_PAPERS_PER_DAY, [process_papers] returns at most that many papers,
    whatever the quota pass appended. *)
Theorem selection_within_cap (self : t) (now : Datetime.datetime)
    (papers : list PaperCreate.t) :
  (0 <= max_papers self)%Z ->
  length (process_papers self now papers) <= Z.to_nat (max_papers self).
Proof.
  intros H. unfold process_papers.
  destruct (negb (nonempty (ContentFilter.filter_papers (filter self) now papers)));
    [simpl; lia|].
  unfold select. cbv zeta. rewrite length_map.
  repeat match goal with
         | |- context [if ?b then _ else _] => destruct b
         end; now apply slice_to_length.
Qed.

Lemma selection_within_cap_witness :
  length (process_papers (create_filter_rank_pipeline Samples.config_cap_2)
            Samples.noon Samples.pool) <= 2.
Proof.
  apply (selection_within_cap (create_filter_rank_pipeline Samples.config_cap_2)
           Samples.noon Samples.pool).
  vm_compute. discriminate.
Defined.

End CapFacts.

(** ** The expectations of the repository's unit tests *)

Section RepositoryTests.

Import Normalize FilterRank Summarize.

Example test_clean_title :
  _clean_title (lit "  Test Title  ") = lit "Test Title"
  /\ _clean_title (lit "Title: Test Paper") = lit "Test Paper"
  /\ _clean_title (lit "TITLE: Test Paper") = lit "Test Paper".
Proof. vm_compute. repeat split. Qed.

Example test_clean_abstract :
  _clean_abstract (lit "  Test abstract  ") = lit "Test abstract"
  /\ _clean_abstract (lit "Abstract: Test content") = lit "Test content".
Proof. vm_compute. repeat split. Qed.

Example test_normalize_authors :
  _normalize_authors [lit "Dr. John Doe"; lit "Prof. Jane Smith"]
  = [lit "John Doe"; lit "Jane Smith"]
  /\ _normalize_authors [] = [].
Proof. vm_compute. repeat split. Qed.

Example test_parse_keywords :
  _parse_keywords (lit "machine learning, AI, deep learning")
  = [lit "machine learning"; lit "ai"; lit "deep learning"].
Proof. vm_compute. reflexivity. Qed.

Example test_is_spam :
  ContentFilter._is_spam
    (PaperCreate.mk (lit "test") None None (lit "Normal Research Paper") [lit "Author 1"]
       (Some (lit "This is a normal research paper about machine learning."))
       (lit "https://example.com") None None None) = false
  /\ ContentFilter._is_spam
       (PaperCreate.mk (lit "test") None None (lit "BUY NOW! SPECIAL OFFER!")
          [lit "Spammer"] (Some (lit "Click here to buy our special offer!"))
          (lit "https://spam.com") None None None) = true.
Proof. vm_compute. repeat split. Qed.

Example test_source_score :
  PaperRanker._source_score (lit "arxiv") = 0.8%float
  /\ PaperRanker._source_score (lit "unknown") = 0.5%float.
Proof. vm_compute. repeat split. Qed.

Example test_recency_score :
  PaperRanker._recency_score Samples.noon (Some Samples.noon) = 1.0%float
  /\ PaperRanker._recency_score Samples.noon None = 0.3%float.
Proof. vm_compute. repeat split. Qed.

Example test_extract_main_topic :
  RuleBasedSummarizer._extract_main_topic (lit "Machine Learning for Image Recognition")
  = Thai.topic_1
  /\ RuleBasedSummarizer._extract_main_topic
       (lit "Computer Vision Applications in Healthcare") = Thai.topic_4
  /\ RuleBasedSummarizer._extract_main_topic (lit "Unknown Topic Paper")
     = Thai.default_topic.
Proof. vm_compute. repeat split. Qed.

Example test_clean_text :
  BaseSummarizer._clean_text (lit "This is **bold** and *italic* text with `code`")
  = lit "This is bold and italic text with code"
  /\ BaseSummarizer._clean_text (lit "TL;DR: This is a summary") = lit "This is a summary".
Proof. vm_compute. repeat split. Qed.

End RepositoryTests.
